(** * ner_wikigold_transformer.ipynb: the notebook's glue code over its libraries

    The notebook [examples/named_entity_recognition/ner_wikigold_transformer.ipynb]
    is a straight-line Python program: nine code cells that assign
    configuration constants, call into [tempfile], [torch], [utils_nlp],
    [seqeval] and [scrapbook], and parse three numbers out of a text report.

    Embedding.
    - The global namespace of the kernel is a finite map from names to
      Python values ([gmap string value]).
    - Every call that leaves the notebook (a library function, a method of a
      library object, [len] of a library object, [print]) is an _external
      call_.  What it answers is decided by the [world], which sees the
      history of calls so far and either returns a result of the call's
      result type or raises.  Theorems quantify over every world.
    - A cell is a computation in a state-and-exception monad [M] over the
      namespace and the trace of external calls.  The notebook is the cells
      run top to bottom, halting at the first uncaught exception.
    - The import cell binds nine names.  A call names its callee in its
      constructor and does not look the name up again: the cells are
      modelled as they run once the import cell has completed, and no cell
      rebinds an imported name ([imports_are_final]).
    - The built-ins [float] (of a string) and [str.format] with [{:.3f}] are
      taken as parameters ([Builtins]); [str.split] and list indexing are
      modelled in full. *)

From Stdlib Require Import ZArith NArith List Ascii String.
From Stdlib Require Import PrimFloat SpecFloat FloatOps.
From stdpp Require Import gmap strings list fin_maps.

Set Warnings "-inexact-float".
Local Open Scope Z_scope.

(** ** Python strings *)

(** A Python [str] is a sequence of Unicode code points. *)
Definition pystr : Type := list N.

(** A string literal of the source (ASCII only) as a [pystr]. *)
Fixpoint lit (s : string) : pystr :=
  match s with
  | EmptyString => []
  | String a s' => N_of_ascii a :: lit s'
  end.

(** [str.isspace] on one code point: the characters on which [str.split()]
    separates fields. *)
Definition isspace (c : N) : bool :=
  ((9 <=? c) && (c <=? 13))%N || ((28 <=? c) && (c <=? 32))%N ||
  (c =? 133)%N || (c =? 160)%N || (c =? 5760)%N ||
  ((8192 <=? c) && (c <=? 8202))%N || (c =? 8232)%N || (c =? 8233)%N ||
  (c =? 8239)%N || (c =? 8287)%N || (c =? 12288)%N.

(** [s.split(sep)] for a separator [sep] of one character: the pieces
    between the occurrences of [sep]; never an empty list. *)
Fixpoint str_split (sep : N) (s : pystr) : list pystr :=
  match s with
  | [] => [[]]
  | c :: s' =>
      if (c =? sep)%N then [] :: str_split sep s'
      else match str_split sep s' with
           | [] => [[c]]
           | w :: ws => (c :: w) :: ws
           end
  end.

(** [s.split()] with no separator: the maximal runs of non-whitespace
    characters.  [w] is the field being read, last character first. *)
Fixpoint str_split_ws_from (w : pystr) (s : pystr) : list pystr :=
  match s with
  | [] => match w with [] => [] | _ => [rev w] end
  | c :: s' =>
      if isspace c then
        match w with
        | [] => str_split_ws_from [] s'
        | _ => rev w :: str_split_ws_from [] s'
        end
      else str_split_ws_from (c :: w) s'
  end.

Definition str_split_ws (s : pystr) : list pystr := str_split_ws_from [] s.

(** The line feed of ['\n']. *)
Definition LF : N := 10%N.

(** ** Values, exceptions *)

(** A reference to an object owned by a library (data loader, dataset,
    label map, model, prediction array, label lists, timer). *)
Inductive obj : Type := Obj (id : N).

Inductive value : Type :=
| VNone
| VBool (b : bool)
| VInt (z : Z)
| VFloat (f : float)
| VStr (s : pystr)
| VStrs (l : list pystr)      (* a list of str, as str.split returns *)
| VObj (o : obj).

Inductive exn_class : Type :=
| IndexError | ValueError | NameError | TypeError | AttributeError.

(** An exception is raised either by the interpreter on the notebook's own
    expression ([PyErr]) or inside an external call ([ExtErr], identified by
    its class name and message). *)
Inductive exn : Type :=
| PyErr (c : exn_class)
| ExtErr (cls : string) (msg : string).

Definition result (A : Type) : Type := exn + A.

(** [l[i]] for [i >= 0]. *)
Definition index {A} (l : list A) (i : nat) : result A :=
  match l !! i with
  | Some x => inr x
  | None => inl (PyErr IndexError)
  end.

(** [l[-k]] for [k >= 1]. *)
Definition index_from_end {A} (l : list A) (k : nat) : result A :=
  if decide (k ≤ length l)%nat then index l (length l - k)
  else inl (PyErr IndexError).

(** Python's [==] on the values above (numbers compare by numeric value
    across [bool], [int] and [float]; library objects by identity). *)
Definition float_eq_Z (f : float) (z : Z) : bool :=
  match Prim2SF f with
  | S754_zero _ => z =? 0
  | S754_finite s m e =>
      let sm := if s then Z.neg m else Z.pos m in
      if 0 <=? e then z =? sm * 2 ^ e else z * 2 ^ (- e) =? sm
  | _ => false
  end.

Definition py_eq (a b : value) : bool :=
  match a, b with
  | VNone, VNone => true
  | VBool x, VBool y => bool_decide (x = y)
  | VBool x, VInt z | VInt z, VBool x => Z.b2z x =? z
  | VBool x, VFloat f | VFloat f, VBool x => float_eq_Z f (Z.b2z x)
  | VInt x, VInt y => x =? y
  | VInt z, VFloat f | VFloat f, VInt z => float_eq_Z f z
  | VFloat x, VFloat y => PrimFloat.eqb x y
  | VStr x, VStr y => bool_decide (x = y)
  | VStrs x, VStrs y => bool_decide (x = y)
  | VObj (Obj x), VObj (Obj y) => (x =? y)%N
  | _, _ => false
  end.

(** Truth value of a value in an [if]: that of a value of a built-in type,
    or the library object that decides its own ([__bool__], [__len__]). *)
Definition truthy (v : value) : bool + obj :=
  match v with
  | VNone => inl false
  | VBool b => inl b
  | VInt z => inl (negb (z =? 0))
  | VFloat f => inl (negb (PrimFloat.eqb f 0%float))
  | VStr s => inl (negb (bool_decide (s = [])))
  | VStrs l => inl (negb (bool_decide (l = [])))
  | VObj o => inr o
  end.

(** ** The built-ins taken as parameters *)

Class Builtins : Type := {
  (** [float(s)] of a string: the number, or [None] where Python raises
      [ValueError]. *)
  float_of_str : pystr -> option float;
  (** ["{:.3f}".format(x)] of a float. *)
  format_3f : float -> pystr
}.

(** ** External calls *)

(** Keyword arguments, in the order the call site writes them. *)
Definition kwargs : Type := list (string * value).

(** The calls that leave the notebook, indexed by the type of what they
    return.  A method call carries its receiver. *)
Inductive call : Type -> Type :=
| import_module (module : string) : call obj
    (* import module: the module object *)
| import_from (module name : string) : call obj
    (* from module import name: the object of that name *)
| truth_value (o : obj) : call bool
    (* the truth value of a library object in an [if] *)
| TemporaryDirectory : call obj
| attr_name (d : obj) : call pystr
| torch_manual_seed (seed : value) : call unit
| torch_cuda_is_available : call bool
| wikigold_load_dataset (kw : kwargs) : call (obj * obj * obj * obj)
| TokenClassifier (kw : kwargs) : call obj
| len (x : value) : call Z
| Timer : call obj
| Timer_enter (mgr : obj) : call obj
| Timer_exit (mgr : obj) (exc : option exn) : call bool
    (* the truth value of what __exit__ returns *)
| Timer_interval (t : value) : call float
| model_fit (self : value) (kw : kwargs) : call unit
| model_predict (self : value) (kw : kwargs) : call obj
| model_get_true_test_labels (self : value) (kw : kwargs) : call obj
| model_get_predicted_token_labels (self : value) (kw : kwargs) : call obj
| classification_report (args : list value) (kw : kwargs) : call pystr
| print (x : value) : call unit
| sb_glue (name : pystr) (x : value) : call unit.

(** One external call with its outcome. *)
Inductive event : Type :=
| Ev {R : Type} (c : call R) (r : result R).

(** The world answers a call knowing the calls made before it. *)
Definition world : Type := forall R : Type, list event -> call R -> result R.

(** ** The kernel state and the monad of cells *)

Record state : Type := State {
  ns : gmap string value;       (* the global namespace *)
  trace : list event            (* external calls so far, oldest first *)
}.

Definition M (A : Type) : Type := state -> result A * state.

Definition ret {A} (a : A) : M A := fun s => (inr a, s).

Definition raise {A} (e : exn) : M A := fun s => (inl e, s).

Definition bind {A B} (m : M A) (k : A -> M B) : M B :=
  fun s => match m s with
           | (inr a, s') => k a s'
           | (inl e, s') => (inl e, s')
           end.

#[export] Instance M_ret : MRet M := @ret.
#[export] Instance M_bind : MBind M := fun A B k m => bind m k.

(** [x = v] at top level of a cell. *)
Definition assign (x : string) (v : value) : M unit :=
  fun s => (inr tt, State (<[x := v]> (ns s)) (trace s)).

(** Reading the global [x]. *)
Definition get (x : string) : M value :=
  fun s => match ns s !! x with
           | Some v => (inr v, s)
           | None => (inl (PyErr NameError), s)
           end.

Definition lift {A} (r : result A) : M A := fun s => (r, s).

(** An external call: ask the world, record the event, return or raise. *)
Definition ext (w : world) {R} (c : call R) : M R :=
  fun s => let r := w R (trace s) c in
           (r, State (ns s) (trace s ++ [Ev c r])).

(** Running [m] and handing its outcome, normal or exceptional, to the
    continuation (what the interpreter does around a [with] body). *)
Definition attempt {A} (m : M A) : M (result A) :=
  fun s => let (r, s') := m s in (inr r, s').

(** [with Timer() as x: body] -- the context-manager protocol: construct,
    [__enter__], bind [x], run the body, then [__exit__] with the exception
    of the body if it raised one; that exception is re-raised unless
    [__exit__] returns a true value. *)
Definition with_Timer_as (w : world) (x : string) (body : M unit) : M unit :=
  mgr ← ext w Timer;
  t ← ext w (Timer_enter mgr);
  assign x (VObj t);;
  r ← attempt body;
  match r with
  | inr _ => ext w (Timer_exit mgr None);; ret tt
  | inl e =>
      swallow ← ext w (Timer_exit mgr (Some e));
      if (swallow : bool) then ret tt else raise e
  end.

(** [if v:] *)
Definition truth (w : world) (v : value) : M bool :=
  match truthy v with
  | inl b => ret b
  | inr o => ext w (truth_value o)
  end.

(** The receiver of [.split] must be a [str], the operand of [[i]] a list;
    on another value the interpreter raises, [AttributeError] where the
    method is missing and [TypeError] where the value cannot be indexed
    (the notebook never gets there: both names are bound to results of the
    right type just before). *)
Definition as_str (v : value) : M pystr :=
  match v with VStr s => ret s | _ => raise (PyErr AttributeError) end.

Definition as_strs (v : value) : M (list pystr) :=
  match v with VStrs l => ret l | _ => raise (PyErr TypeError) end.

(** ** The cells *)

Section Notebook.
Context `{Builtins}.
Variable w : world.

(** [float(s)] *)
Definition py_float (s : pystr) : M float :=
  match float_of_str s with
  | Some x => ret x
  | None => raise (PyErr ValueError)
  end.

(** Cell 1.  [QUICK_RUN = False] as shipped; [q] is the value the user
    leaves there. *)
Definition cell_quick_run (q : bool) : M unit :=
  assign "QUICK_RUN" (VBool q).

(** Cell 2: the imports, each binding its name. *)
Definition cell_imports : M unit :=
  m ← ext w (import_module "sys");
  assign "sys" (VObj m);;
  m ← ext w (import_module "os");
  assign "os" (VObj m);;
  m ← ext w (import_module "scrapbook");
  assign "sb" (VObj m);;
  m ← ext w (import_module "torch");
  assign "torch" (VObj m);;
  x ← ext w (import_from "tempfile" "TemporaryDirectory");
  assign "TemporaryDirectory" (VObj x);;
  x ← ext w (import_from "utils_nlp.dataset" "wikigold");
  assign "wikigold" (VObj x);;
  x ← ext w (import_from "utils_nlp.common.timer" "Timer");
  assign "Timer" (VObj x);;
  x ← ext w (import_from "seqeval.metrics" "classification_report");
  assign "classification_report" (VObj x);;
  x ← ext w (import_from
               "utils_nlp.models.transformers.named_entity_recognition"
               "TokenClassifier");
  assign "TokenClassifier" (VObj x).

(** Cell 3: the configuration cell. *)
Definition cell_configuration : M unit :=
  assign "TEST_DATA_FRACTION" (VFloat 0.3);;
  assign "TRAIN_SAMPLE_RATIO" (VInt 1);;
  assign "TEST_SAMPLE_RATIO" (VInt 1);;
  assign "NUM_TRAIN_EPOCHS" (VInt 5);;
  quick ← get "QUICK_RUN";
  quick ← truth w quick;
  (if (quick : bool) then
     assign "TRAIN_SAMPLE_RATIO" (VFloat 0.1);;
     assign "TEST_SAMPLE_RATIO" (VFloat 0.1);;
     assign "NUM_TRAIN_EPOCHS" (VInt 1)
   else ret tt);;
  d ← ext w TemporaryDirectory;
  p ← ext w (attr_name d);
  assign "DATA_PATH" (VStr p);;
  d ← ext w TemporaryDirectory;
  p ← ext w (attr_name d);
  assign "CACHE_DIR" (VStr p);;
  assign "RANDOM_SEED" (VInt 100);;
  seed ← get "RANDOM_SEED";
  ext w (torch_manual_seed seed);;
  assign "MODEL_NAME" (VStr (lit "bert-base-cased"));;
  assign "DO_LOWER_CASE" (VBool false);;
  assign "MAX_SEQ_LENGTH" (VInt 200);;
  assign "TRAILING_PIECE_TAG" (VStr (lit "X"));;
  assign "DEVICE" (VStr (lit "cuda"));;
  cuda ← ext w torch_cuda_is_available;
  if (cuda : bool) then assign "BATCH_SIZE" (VInt 16)
  else assign "BATCH_SIZE" (VInt 8).

(** Cell 4: [wikigold.load_dataset(...)], unpacked into four names. *)
Definition cell_load_dataset : M unit :=
  local_path ← get "DATA_PATH";
  test_fraction ← get "TEST_DATA_FRACTION";
  random_seed ← get "RANDOM_SEED";
  train_sample_ratio ← get "TRAIN_SAMPLE_RATIO";
  test_sample_ratio ← get "TEST_SAMPLE_RATIO";
  model_name ← get "MODEL_NAME";
  to_lower ← get "DO_LOWER_CASE";
  cache_dir ← get "CACHE_DIR";
  max_len ← get "MAX_SEQ_LENGTH";
  trailing_piece_tag ← get "TRAILING_PIECE_TAG";
  batch_size ← get "BATCH_SIZE";
  r ← ext w (wikigold_load_dataset
               [("local_path", local_path);
                ("test_fraction", test_fraction);
                ("random_seed", random_seed);
                ("train_sample_ratio", train_sample_ratio);
                ("test_sample_ratio", test_sample_ratio);
                ("model_name", model_name);
                ("to_lower", to_lower);
                ("cache_dir", cache_dir);
                ("max_len", max_len);
                ("trailing_piece_tag", trailing_piece_tag);
                ("batch_size", batch_size);
                ("num_gpus", VNone)]);
  let '(train_dataloader, test_dataloader, label_map, test_dataset) := r in
  assign "train_dataloader" (VObj train_dataloader);;
  assign "test_dataloader" (VObj test_dataloader);;
  assign "label_map" (VObj label_map);;
  assign "test_dataset" (VObj test_dataset).

(** ["<prefix>{:.3f} hrs".format(t.interval / 3600)] *)
Definition hours_message (prefix : string) : M value :=
  t ← get "t";
  interval ← ext w (Timer_interval t);
  ret (VStr (lit prefix ++ format_3f (interval / 3600)%float ++ lit " hrs")).

(** Cell 5: construct the classifier, fit it under a timer, print the time. *)
Definition cell_train : M unit :=
  model_name ← get "MODEL_NAME";
  label_map ← get "label_map";
  num_labels ← ext w (len label_map);
  cache_dir ← get "CACHE_DIR";
  model ← ext w (TokenClassifier
                   [("model_name", model_name);
                    ("num_labels", VInt num_labels);
                    ("cache_dir", cache_dir)]);
  assign "model" (VObj model);;
  with_Timer_as w "t"
    (model ← get "model";
     train_dataloader ← get "train_dataloader";
     num_epochs ← get "NUM_TRAIN_EPOCHS";
     seed ← get "RANDOM_SEED";
     ext w (model_fit model
              [("train_dataloader", train_dataloader);
               ("num_epochs", num_epochs);
               ("num_gpus", VNone);
               ("local_rank", VInt (-1));
               ("weight_decay", VFloat 0.0);
               ("learning_rate", VFloat 5e-5);
               ("adam_epsilon", VFloat 1e-8);
               ("warmup_steps", VInt 0);
               ("verbose", VBool true);
               ("seed", seed)]));;
  msg ← hours_message "Training time : ";
  ext w (print msg).

(** Cell 6: predict under a timer, print the time. *)
Definition cell_predict : M unit :=
  with_Timer_as w "t"
    (model ← get "model";
     test_dataloader ← get "test_dataloader";
     preds ← ext w (model_predict model
                      [("test_dataloader", test_dataloader);
                       ("num_gpus", VNone);
                       ("verbose", VBool true)]);
     assign "preds" (VObj preds));;
  msg ← hours_message "Prediction time : ";
  ext w (print msg).

(** Cell 7: the true labels of the test set. *)
Definition cell_true_labels : M unit :=
  model ← get "model";
  label_map ← get "label_map";
  dataset ← get "test_dataset";
  true_labels ← ext w (model_get_true_test_labels model
                         [("label_map", label_map); ("dataset", dataset)]);
  assign "true_labels" (VObj true_labels).

(** Cell 8: the predicted labels and the classification report. *)
Definition cell_report : M unit :=
  model ← get "model";
  predictions ← get "preds";
  label_map ← get "label_map";
  dataset ← get "test_dataset";
  predicted_labels ← ext w (model_get_predicted_token_labels model
                              [("predictions", predictions);
                               ("label_map", label_map);
                               ("dataset", dataset)]);
  assign "predicted_labels" (VObj predicted_labels);;
  true_labels ← get "true_labels";
  predicted_labels ← get "predicted_labels";
  report ← ext w (classification_report [true_labels; predicted_labels]
                    [("digits", VInt 2)]);
  assign "report" (VStr report);;
  report ← get "report";
  ext w (print report).

(** [sb.glue(name, float(report_splits[i]))] *)
Definition glue_metric (name : string) (i : nat) : M unit :=
  report_splits ← get "report_splits";
  fields ← as_strs report_splits;
  field ← lift (index fields i);
  x ← py_float field;
  ext w (sb_glue (lit name) (VFloat x)).

(** Cell 9 ("For Testing"): the three metrics out of the report. *)
Definition cell_metrics : M unit :=
  report ← get "report";
  text ← as_str report;
  line ← lift (index_from_end (str_split LF text) 2);
  assign "report_splits" (VStrs (str_split_ws line));;
  glue_metric "precision" 2;;
  glue_metric "recall" 3;;
  glue_metric "f1" 4.

(** The code cells, top to bottom. *)
Definition cells (quick_run : bool) : list (M unit) :=
  [cell_quick_run quick_run; cell_imports; cell_configuration;
   cell_load_dataset; cell_train; cell_predict; cell_true_labels;
   cell_report; cell_metrics].

(** Run All: each cell in turn, stopping at the first one that raises. *)
Fixpoint run_cells (cs : list (M unit)) : M unit :=
  match cs with
  | [] => ret tt
  | c :: cs' => c;; run_cells cs'
  end.

Definition fresh_kernel : state := State ∅ [].

(** The state and outcome after running the first [n] cells. *)
Definition run_first (n : nat) (quick_run : bool) : result unit * state :=
  run_cells (take n (cells quick_run)) fresh_kernel.

Definition notebook (quick_run : bool) : result unit * state :=
  run_cells (cells quick_run) fresh_kernel.

End Notebook.

(** ** What the theorems say about a trace *)

(** The value passed for the keyword [k]. *)
Fixpoint kwarg (k : string) (kw : kwargs) : option value :=
  match kw with
  | [] => None
  | (k', v) :: kw' => if decide (k' = k) then Some v else kwarg k kw'
  end.





(** The first external call that raised: its exception and the calls made
    after it. *)
Fixpoint first_raise (tr : list event) : option (exn * list event) :=
  match tr with
  | [] => None
  | Ev _ (inl e) :: tr' => Some (e, tr')
  | Ev _ (inr _) :: tr' => first_raise tr'
  end.

(** A [Timer.__exit__] that returned a false value. *)
Definition is_Timer_exit (ev : event) : bool :=
  match ev with
  | Ev (Timer_exit _ _) (inr false) => true
  | _ => false
  end.

(** Modelled from the spec: the [Timer] class ([utils_nlp.common.timer]) is
    not among the sources.  The spec has no recovery, retry or error
    translation anywhere; for a context manager that means: handed an
    exception, its [__exit__] returns a false value and raises nothing. *)
Definition timer_passes_exceptions (w : world) : Prop :=
  ∀ h mgr e, w bool h (Timer_exit mgr (Some e)) = inr false.





(** The keywords of a call, in the order written. *)
Definition keywords (kw : kwargs) : list string := kw.*1.

(** The keywords that select devices.  Modelled from the documentation of
    the library, which is not among the sources: [num_gpus] is the number
    of GPUs to use ([None]: all there are), [local_rank] the rank of the
    process in distributed training ([-1]: not distributed). *)
Definition device_keywords : list string := ["num_gpus"; "local_rank"].

Definition device_args (kw : kwargs) : kwargs :=
  filter (λ p, p.1 ∈ device_keywords) kw.

(** The reading under which [num_gpus] would be the single device
    argument: it is the one device keyword of [load_dataset], of [fit] and
    of [predict]. *)
Definition solely_num_gpus (ev : event) : Prop :=
  match ev with
  | Ev (wikigold_load_dataset kw) _
  | Ev (model_fit _ kw) _
  | Ev (model_predict _ kw) _ => ∃ v, device_args kw = [("num_gpus", v)]
  | _ => True
  end.

(** What the calls carry: the keywords of every call are those written in
    its cell; of the device keywords, [load_dataset] and [predict] carry
    [num_gpus=None] alone, [fit] carries [num_gpus=None] and
    [local_rank=-1]; no other call carries one. *)
Definition device_configured (ev : event) : Prop :=
  match ev with
  | Ev (wikigold_load_dataset kw) _ =>
      keywords kw
      = ["local_path"; "test_fraction"; "random_seed"; "train_sample_ratio";
         "test_sample_ratio"; "model_name"; "to_lower"; "cache_dir";
         "max_len"; "trailing_piece_tag"; "batch_size"; "num_gpus"] ∧
      device_args kw = [("num_gpus", VNone)]
  | Ev (model_fit _ kw) _ =>
      keywords kw
      = ["train_dataloader"; "num_epochs"; "num_gpus"; "local_rank";
         "weight_decay"; "learning_rate"; "adam_epsilon"; "warmup_steps";
         "verbose"; "seed"] ∧
      device_args kw = [("num_gpus", VNone); ("local_rank", VInt (-1))]
  | Ev (model_predict _ kw) _ =>
      keywords kw = ["test_dataloader"; "num_gpus"; "verbose"] ∧
      device_args kw = [("num_gpus", VNone)]
  | Ev (TokenClassifier kw) _ =>
      keywords kw = ["model_name"; "num_labels"; "cache_dir"] ∧
      device_args kw = []
  | Ev (model_get_true_test_labels _ kw) _ =>
      keywords kw = ["label_map"; "dataset"] ∧ device_args kw = []
  | Ev (model_get_predicted_token_labels _ kw) _ =>
      keywords kw = ["predictions"; "label_map"; "dataset"] ∧
      device_args kw = []
  | Ev (classification_report _ kw) _ =>
      keywords kw = ["digits"] ∧ device_args kw = []
  | _ => True
  end.

(** The constants of the configuration cell. *)
Definition configuration_names : list string :=
  ["TEST_DATA_FRACTION"; "TRAIN_SAMPLE_RATIO"; "TEST_SAMPLE_RATIO";
   "NUM_TRAIN_EPOCHS"; "DATA_PATH"; "CACHE_DIR"; "RANDOM_SEED";
   "MODEL_NAME"; "DO_LOWER_CASE"; "MAX_SEQ_LENGTH"; "TRAILING_PIECE_TAG";
   "DEVICE"; "BATCH_SIZE"].

(** [x == v] is true in the namespace [m]. *)
Definition holds (m : gmap string value) (x : string) (v : value) : Prop :=
  ∃ u, m !! x = Some u ∧ py_eq u v = true.

(** ** The metric extraction, in the words of its description *)

Section MetricsSpec.
Context `{Builtins}.

(** The second-to-last line of the report. *)
Definition second_to_last_line (report : pystr) : option pystr :=
  reverse (str_split LF report) !! 1%nat.

(** The field at index [i] of that line, converted to float. *)
Definition metric_at (report : pystr) (i : nat) : option float :=
  line ← second_to_last_line report;
  field ← str_split_ws line !! i;
  float_of_str field.

(** The metrics to record, in order: name and field index. *)
Definition metric_fields : list (string * nat) :=
  [("precision", 2%nat); ("recall", 3%nat); ("f1", 4%nat)].

(** The event records the metric [name] with field [i] of the report. *)
Definition records (report : pystr) (ev : event) (m : string * nat) : Prop :=
  match ev with
  | Ev (sb_glue name (VFloat x)) _ =>
      name = lit m.1 ∧ metric_at report m.2 = Some x
  | _ => False
  end.

(** The shape the extraction needs: a second-to-last line with at least
    five fields, of which those at 2, 3 and 4 parse as floats. *)
Definition well_shaped (report : pystr) : bool :=
  match second_to_last_line report with
  | Some line =>
      bool_decide (5 ≤ length (str_split_ws line))%nat &&
      forallb (λ i, bool_decide (is_Some (metric_at report i)))
              [2%nat; 3%nat; 4%nat]
  | None => false
  end.

(** Every [sb.glue] call returns. *)
Definition glue_returns (w : world) : Prop :=
  ∀ h name x, w unit h (sb_glue name x) = inr tt.

End MetricsSpec.

(** ** A concrete instance: built-ins on fixed-point notation, scripted worlds *)

(** The instance of [Builtins] used to run the notebook on examples.  It
    covers the notation the report is printed in (["0.85"], ["-12.5"],
    ["7"]): an optional sign, ASCII digits and at most one point, rounded to
    the nearest binary64.  Exponents, [inf], [nan], underscores and
    non-ASCII digits, which Python's [float] also reads, are left out; the
    theorems do not depend on this instance. *)
Module FixedPoint.

Fixpoint digits_value (acc : N) (s : pystr) : option N :=
  match s with
  | [] => Some acc
  | c :: s' =>
      if ((48 <=? c) && (c <=? 57))%N
      then digits_value (10 * acc + (c - 48))%N s'
      else None
  end.

(** The binary64 nearest to [(-1)^neg * n / d]. *)
Definition nearest (neg : bool) (n : N) (d : positive) : float :=
  match n with
  | N0 => SF2Prim (S754_zero neg)
  | Npos p =>
      SF2Prim (SFdiv prec emax (S754_finite neg p 0)
                     (S754_finite false d 0))
  end.

Definition unsigned_float (s : pystr) (neg : bool) : option float :=
  match str_split 46 s with
  | [int_part] =>
      match int_part with
      | [] => None
      | _ => n ← digits_value 0 int_part; Some (nearest neg n 1)
      end
  | [int_part; frac_part] =>
      match int_part ++ frac_part with
      | [] => None
      | ds => n ← digits_value 0 ds;
              Some (nearest neg n (Nat.iter (length frac_part)
                                              (Pos.mul 10) 1%positive))
      end
  | _ => None
  end.

Definition parse_fixed (s : pystr) : option float :=
  match s with
  | 45%N :: s' => unsigned_float s' true
  | 43%N :: s' => unsigned_float s' false
  | _ => unsigned_float s false
  end.

Fixpoint uint_codes (d : Decimal.uint) : pystr :=
  match d with
  | Decimal.Nil => []
  | Decimal.D0 d' => 48%N :: uint_codes d'
  | Decimal.D1 d' => 49%N :: uint_codes d'
  | Decimal.D2 d' => 50%N :: uint_codes d'
  | Decimal.D3 d' => 51%N :: uint_codes d'
  | Decimal.D4 d' => 52%N :: uint_codes d'
  | Decimal.D5 d' => 53%N :: uint_codes d'
  | Decimal.D6 d' => 54%N :: uint_codes d'
  | Decimal.D7 d' => 55%N :: uint_codes d'
  | Decimal.D8 d' => 56%N :: uint_codes d'
  | Decimal.D9 d' => 57%N :: uint_codes d'
  end.

Definition decimal (n : N) : pystr := uint_codes (N.to_uint n).

(** [num / den] rounded to the nearest integer, ties to even. *)
Definition round_half_even (num den : Z) : Z :=
  let q := num / den in
  let r := num mod den in
  if (den <? 2 * r) || ((den =? 2 * r) && Z.odd q) then q + 1 else q.

Definition format_fixed (x : float) : pystr :=
  match Prim2SF x with
  | S754_nan => lit "nan"
  | S754_infinity s => lit (if s then "-inf" else "inf")
  | S754_zero s => lit (if s then "-0.000" else "0.000")
  | S754_finite s m e =>
      let thousandths :=
        if 0 <=? e then Z.pos m * 2 ^ e * 1000
        else round_half_even (Z.pos m * 1000) (2 ^ (- e)) in
      let frac := decimal (Z.to_N (thousandths mod 1000)) in
      lit (if s then "-" else "") ++
      decimal (Z.to_N (thousandths / 1000)) ++ lit "." ++
      replicate (3 - length frac) 48%N ++ frac
  end.

#[global] Instance builtins : Builtins :=
  {| float_of_str := parse_fixed; format_3f := format_fixed |}.

End FixedPoint.

(** A scripted world: every call succeeds with a canned answer unless the
    script makes it fail. *)
Record script : Type := Script {
  cuda_available : bool;
  tmp_name : pystr;                      (* what TemporaryDirectory().name is *)
  label_count : Z;                       (* len(label_map) *)
  seconds : float;                       (* t.interval *)
  report_text : pystr;                   (* what classification_report returns *)
  exit_value : bool;                     (* truth value of Timer.__exit__(...) *)
  failure : ∀ R, call R → option exn     (* the calls that raise *)
}.

Definition play (sc : script) : world :=
  λ R h c,
    match failure sc R c with
    | Some e => inl e
    | None =>
        let fresh := Obj (4 * N.of_nat (length h)) in
        match c in call R return result R with
        | import_module _ => inr fresh
        | import_from _ _ => inr fresh
        | truth_value _ => inr true
        | TemporaryDirectory => inr fresh
        | attr_name _ => inr (tmp_name sc)
        | torch_manual_seed _ => inr tt
        | torch_cuda_is_available => inr (cuda_available sc)
        | wikigold_load_dataset _ =>
            let n := (4 * N.of_nat (length h))%N in
            inr (Obj n, Obj (n + 1), Obj (n + 2), Obj (n + 3))
        | TokenClassifier _ => inr fresh
        | len _ => inr (label_count sc)
        | Timer => inr fresh
        | Timer_enter mgr => inr mgr
        | Timer_exit _ _ => inr (exit_value sc)
        | Timer_interval _ => inr (seconds sc)
        | model_fit _ _ => inr tt
        | model_predict _ _ => inr fresh
        | model_get_true_test_labels _ _ => inr fresh
        | model_get_predicted_token_labels _ _ => inr fresh
        | classification_report _ _ => inr (report_text sc)
        | print _ => inr tt
        | sb_glue _ _ => inr tt
        end
    end.

Definition no_failure : ∀ R, call R → option exn := λ _ _, None.

(** A report as [seqeval] prints it with [digits=2]. *)
Definition sample_report : pystr := lit
"           precision    recall  f1-score   support

      LOC       0.90      0.92      0.91       304
      PER       0.95      0.96      0.95       322
      ORG       0.78      0.81      0.80       254
     MISC       0.70      0.72      0.71       193

micro avg       0.85      0.87      0.86      1073
macro avg       0.83      0.85      0.84      1073
".

(** A machine with a GPU on which everything works. *)
Definition calm : script :=
  Script true (lit "/tmp/tmpk3x9v2ab") 5 25.5 sample_report false no_failure.

(** The same machine with another temporary directory. *)
Definition calm_elsewhere : script :=
  Script true (lit "/tmp/tmp0qg7h_1c") 5 25.5 sample_report false no_failure.

(** Training runs out of GPU memory. *)
Definition out_of_memory : exn := ExtErr "RuntimeError" "CUDA out of memory".

Definition fit_fails : script :=
  Script true (lit "/tmp/tmpk3x9v2ab") 5 25.5 sample_report false
    (λ R c, match c with model_fit _ _ => Some out_of_memory | _ => None end).

(** A report whose summary line stops after the recall column. *)
Definition short_report : pystr := lit
"macro avg       0.83      0.85
".

(** The machine where everything works, handed the short report. *)
Definition calm_short : script :=
  Script true (lit "/tmp/tmpk3x9v2ab") 5 25.5 short_report false no_failure.

(** A machine whose context manager returns a true value from [__exit__],
    and on which training runs out of memory. *)
Definition fit_fails_quietly : script :=
  Script true (lit "/tmp/tmpk3x9v2ab") 5 25.5 sample_report true
    (λ R c, match c with model_fit _ _ => Some out_of_memory | _ => None end).


(** The constants whose value is written in the cell itself, as the
    configuration cell leaves them. *)
Definition literal_constants (quick_run : bool) : list (string * value) :=
  [("TEST_DATA_FRACTION", VFloat 0.3);
   ("TRAIN_SAMPLE_RATIO", if quick_run then VFloat 0.1 else VInt 1);
   ("TEST_SAMPLE_RATIO", if quick_run then VFloat 0.1 else VInt 1);
   ("NUM_TRAIN_EPOCHS", VInt (if quick_run then 1 else 5));
   ("RANDOM_SEED", VInt 100);
   ("MODEL_NAME", VStr (lit "bert-base-cased"));
   ("DO_LOWER_CASE", VBool false);
   ("MAX_SEQ_LENGTH", VInt 200);
   ("TRAILING_PIECE_TAG", VStr (lit "X"));
   ("DEVICE", VStr (lit "cuda"))].

(** The constants the quick-run flag is not meant to touch. *)
Definition other_constants : list string :=
  ["TEST_DATA_FRACTION"; "RANDOM_SEED"; "MODEL_NAME"; "DO_LOWER_CASE";
   "MAX_SEQ_LENGTH"; "TRAILING_PIECE_TAG"; "DEVICE"; "BATCH_SIZE"].

(** A configuration constant depends on the execution environment when two
    worlds in which the configuration cell completes, started from the same
    state, leave it with different values. *)
Definition environment_dependent `{Builtins} (x : string) : Prop :=
  ∃ (w1 w2 : world) (s : state),
    (cell_configuration w1 s).1 = inr tt ∧
    (cell_configuration w2 s).1 = inr tt ∧
    ns (cell_configuration w1 s).2 !! x ≠ ns (cell_configuration w2 s).2 !! x.

(** The names the cells after the configuration cell assign. *)
Definition later_names : list string :=
  ["train_dataloader"; "test_dataloader"; "label_map"; "test_dataset";
   "model"; "t"; "preds"; "true_labels"; "predicted_labels"; "report";
   "report_splits"].

(** The computation leaves the binding of [x] as it found it. *)
Definition keeps {A} (x : string) (c : M A) : Prop :=
  ∀ s, ns (c s).2 !! x = ns s !! x.

(** The computation never reads [DEVICE]: with [DEVICE] bound to another
    value it makes the same calls, ends alike and leaves the same
    namespace, but for [DEVICE]. *)
Definition device_blind (c : M unit) : Prop :=
  ∀ v m h,
    let out1 := c (State (<["DEVICE" := v]> m) h) in
    let out2 := c (State m h) in
    out1.1 = out2.1 ∧ trace out1.2 = trace out2.2 ∧
    ns out1.2 = <["DEVICE" := v]> (ns out2.2).

(** ** What a run handed to its calls, and what it got back *)

(** A property of a value that may be missing: nothing is asked when it is. *)
Definition given {A} (o : option A) (P : A → Prop) : Prop :=
  match o with
  | Some a => P a
  | None => True
  end.

(** The names [TemporaryDirectory().name] returned, oldest first. *)
Definition tmp_names (tr : list event) : list pystr :=
  omap (λ ev, match ev with
              | Ev (attr_name _) (inr p) => Some p
              | _ => None
              end) tr.

(** What [torch.cuda.is_available()] answered. *)
Definition cuda_answer (tr : list event) : option bool :=
  head (omap (λ ev, match ev with
                    | Ev torch_cuda_is_available (inr b) => Some b
                    | _ => None
                    end) tr).

(** The four objects [load_dataset] returned. *)
Definition loaded (tr : list event) : option (obj * obj * obj * obj) :=
  head (omap (λ ev, match ev with
                    | Ev (wikigold_load_dataset _) (inr r) => Some r
                    | _ => None
                    end) tr).

Definition load_kwargs (tr : list event) : option kwargs :=
  head (omap (λ ev, match ev with
                    | Ev (wikigold_load_dataset kw) _ => Some kw
                    | _ => None
                    end) tr).

(** The classifier [TokenClassifier(...)] returned, and what it was given. *)
Definition classifier (tr : list event) : option obj :=
  head (omap (λ ev, match ev with
                    | Ev (TokenClassifier _) (inr o) => Some o
                    | _ => None
                    end) tr).

Definition classifier_kwargs (tr : list event) : option kwargs :=
  head (omap (λ ev, match ev with
                    | Ev (TokenClassifier kw) _ => Some kw
                    | _ => None
                    end) tr).

(** Receiver and keywords of the [fit] and [predict] calls, and the
    predictions [predict] returned. *)
Definition fit_call (tr : list event) : option (value * kwargs) :=
  head (omap (λ ev, match ev with
                    | Ev (model_fit self kw) _ => Some (self, kw)
                    | _ => None
                    end) tr).

Definition predict_call (tr : list event) : option (value * kwargs) :=
  head (omap (λ ev, match ev with
                    | Ev (model_predict self kw) _ => Some (self, kw)
                    | _ => None
                    end) tr).

Definition predictions (tr : list event) : option obj :=
  head (omap (λ ev, match ev with
                    | Ev (model_predict _ _) (inr o) => Some o
                    | _ => None
                    end) tr).

(** The two label decoders: receiver and keywords, and what they returned. *)
Definition true_labels_call (tr : list event) : option (value * kwargs) :=
  head (omap (λ ev, match ev with
                    | Ev (model_get_true_test_labels self kw) _ =>
                        Some (self, kw)
                    | _ => None
                    end) tr).

Definition true_labels (tr : list event) : option obj :=
  head (omap (λ ev, match ev with
                    | Ev (model_get_true_test_labels _ _) (inr o) => Some o
                    | _ => None
                    end) tr).

Definition predicted_labels_call (tr : list event) : option (value * kwargs) :=
  head (omap (λ ev, match ev with
                    | Ev (model_get_predicted_token_labels self kw) _ =>
                        Some (self, kw)
                    | _ => None
                    end) tr).

Definition predicted_labels (tr : list event) : option obj :=
  head (omap (λ ev, match ev with
                    | Ev (model_get_predicted_token_labels _ _) (inr o) =>
                        Some o
                    | _ => None
                    end) tr).

(** Positional arguments of [classification_report], and the report it
    returned. *)
Definition report_args (tr : list event) : option (list value) :=
  head (omap (λ ev, match ev with
                    | Ev (classification_report args _) _ => Some args
                    | _ => None
                    end) tr).

Definition returned_report (tr : list event) : option pystr :=
  head (omap (λ ev, match ev with
                    | Ev (classification_report _ _) (inr s) => Some s
                    | _ => None
                    end) tr).

(** What was printed, and the intervals read off the timers, oldest
    first. *)
Definition printed (tr : list event) : list value :=
  omap (λ ev, match ev with
              | Ev (print x) _ => Some x
              | _ => None
              end) tr.

Definition intervals (tr : list event) : list float :=
  omap (λ ev, match ev with
              | Ev (Timer_interval _) (inr x) => Some x
              | _ => None
              end) tr.

(** The literal configuration as a call should receive it: the seed 100
    wherever a seed is taken, the cased model with lower-casing off, the
    sampling ratios and the epoch count of the quick-run flag. *)
Definition one_seed (ev : event) : Prop :=
  match ev with
  | Ev (torch_manual_seed seed) _ => seed = VInt 100
  | Ev (wikigold_load_dataset kw) _ => kwarg "random_seed" kw = Some (VInt 100)
  | Ev (model_fit _ kw) _ => kwarg "seed" kw = Some (VInt 100)
  | _ => True
  end.

Definition cased_model (ev : event) : Prop :=
  match ev with
  | Ev (wikigold_load_dataset kw) _ =>
      kwarg "model_name" kw = Some (VStr (lit "bert-base-cased")) ∧
      kwarg "to_lower" kw = Some (VBool false)
  | Ev (TokenClassifier kw) _ =>
      kwarg "model_name" kw = Some (VStr (lit "bert-base-cased"))
  | _ => True
  end.

Definition quick_run_applied (quick_run : bool) (ev : event) : Prop :=
  match ev with
  | Ev (wikigold_load_dataset kw) _ =>
      kwarg "train_sample_ratio" kw
        = Some (if quick_run then VFloat 0.1 else VInt 1) ∧
      kwarg "test_sample_ratio" kw
        = Some (if quick_run then VFloat 0.1 else VInt 1)
  | Ev (model_fit _ kw) _ =>
      kwarg "num_epochs" kw = Some (if quick_run then VInt 1 else VInt 5)
  | _ => True
  end.

(** The two directories and the batch size reach the calls: [load_dataset]
    gets the first directory name as [local_path], the second as
    [cache_dir], and the batch size of the CUDA answer; the classifier gets
    the same [cache_dir]. *)
Definition environment_flows (tr : list event) : Prop :=
  given (load_kwargs tr)
    (λ kw, kwarg "local_path" kw = VStr <$> tmp_names tr !! 0%nat ∧
           kwarg "cache_dir" kw = VStr <$> tmp_names tr !! 1%nat ∧
           kwarg "batch_size" kw
             = (λ b : bool, if b then VInt 16 else VInt 8) <$> cuda_answer tr) ∧
  given (classifier_kwargs tr)
    (λ kw, kwarg "cache_dir" kw = VStr <$> tmp_names tr !! 1%nat).

(** The batch size [load_dataset] receives is 16 when
    [torch.cuda.is_available()] answered true and 8 when it answered
    false. *)
Definition batch_size_by_cuda (tr : list event) : Prop :=
  given (load_kwargs tr)
    (λ kw, kwarg "batch_size" kw
           = (λ b : bool, if b then VInt 16 else VInt 8) <$> cuda_answer tr).

(** The objects go where they belong: the classifier is the receiver of
    [fit], [predict] and both decoders; [fit] trains on the first object
    [load_dataset] returned, [predict] runs on the second, both decoders
    read the fourth; the predicted labels are decoded from what [predict]
    returned; the report compares true labels with predicted labels, in
    that order. *)
Definition objects_flow (tr : list event) : Prop :=
  given (fit_call tr)
    (λ c, Some c.1 = VObj <$> classifier tr ∧
          kwarg "train_dataloader" c.2
            = (λ r : obj * obj * obj * obj, VObj r.1.1.1) <$> loaded tr) ∧
  given (predict_call tr)
    (λ c, Some c.1 = VObj <$> classifier tr ∧
          kwarg "test_dataloader" c.2
            = (λ r : obj * obj * obj * obj, VObj r.1.1.2) <$> loaded tr) ∧
  given (true_labels_call tr)
    (λ c, Some c.1 = VObj <$> classifier tr ∧
          kwarg "dataset" c.2
            = (λ r : obj * obj * obj * obj, VObj r.2) <$> loaded tr) ∧
  given (predicted_labels_call tr)
    (λ c, Some c.1 = VObj <$> classifier tr ∧
          kwarg "predictions" c.2 = VObj <$> predictions tr ∧
          kwarg "dataset" c.2
            = (λ r : obj * obj * obj * obj, VObj r.2) <$> loaded tr) ∧
  given (report_args tr)
    (λ args, Some args
             = (t ← true_labels tr; p ← predicted_labels tr;
                Some [VObj t; VObj p])).

(** The phases of a timer in a [with] block. *)
Inductive timer_phase : Type :=
| NoTimer
| Made (mgr : obj)
| Entered (mgr t : obj)
| BodyDone (mgr t : obj) (exc : option exn)
| Stopped (t : obj).

(** The exception a call ended on, if any. *)
Definition exception_of {A} (r : result A) : option exn :=
  match r with
  | inl e => Some e
  | inr _ => None
  end.

(** One event against the timer protocol: the phase it leads to, and what
    it must satisfy.  A timer is constructed, entered, wraps one call of
    [fit] or [predict], is left through [__exit__] with the exception of
    that call, and only then asked for its interval. *)
Definition timer_step (ph : timer_phase) (ev : event) : timer_phase * Prop :=
  match ev with
  | Ev Timer r =>
      (match r with inr mgr => Made mgr | inl _ => NoTimer end,
       match ph with NoTimer | Stopped _ => True | _ => False end)
  | Ev (Timer_enter m) r =>
      match ph with
      | Made mgr =>
          (match r with inr t => Entered mgr t | inl _ => NoTimer end, m = mgr)
      | _ => (ph, False)
      end
  | Ev (model_fit _ _) r =>
      match ph with
      | Entered mgr t => (BodyDone mgr t (exception_of r), True)
      | _ => (ph, False)
      end
  | Ev (model_predict _ _) r =>
      match ph with
      | Entered mgr t => (BodyDone mgr t (exception_of r), True)
      | _ => (ph, False)
      end
  | Ev (Timer_exit m exc) r =>
      match ph with
      | BodyDone mgr t body =>
          (match r with inr _ => Stopped t | inl _ => NoTimer end,
           m = mgr ∧ exc = body)
      | _ => (ph, False)
      end
  | Ev (Timer_interval x) _ =>
      match ph with
      | Stopped t => (ph, x = VObj t)
      | _ => (ph, False)
      end
  | _ => (ph, True)
  end.

Fixpoint timer_protocol (ph : timer_phase) (tr : list event) : Prop :=
  match tr with
  | [] => True
  | ev :: tr' =>
      (timer_step ph ev).2 ∧ timer_protocol (timer_step ph ev).1 tr'
  end.

(** [predict] raised and the [__exit__] called next returned a true value. *)
Definition raised_predict (ev : event) : bool :=
  match ev with
  | Ev (model_predict _ _) (inl _) => true
  | _ => false
  end.

Definition swallowing_exit (ev : event) : bool :=
  match ev with
  | Ev (Timer_exit _ (Some _)) (inr true) => true
  | _ => false
  end.

Fixpoint predict_swallowed (tr : list event) : bool :=
  match tr with
  | [] => false
  | ev :: tr' =>
      match tr' with
      | ev' :: _ => raised_predict ev && swallowing_exit ev'
      | [] => false
      end || predict_swallowed tr'
  end.

(** The names cell 4 reads, in the order it reads them. *)
Definition load_reads : list string :=
  ["DATA_PATH"; "TEST_DATA_FRACTION"; "RANDOM_SEED"; "TRAIN_SAMPLE_RATIO";
   "TEST_SAMPLE_RATIO"; "MODEL_NAME"; "DO_LOWER_CASE"; "CACHE_DIR";
   "MAX_SEQ_LENGTH"; "TRAILING_PIECE_TAG"; "BATCH_SIZE"].

(** The exceptions external calls raised, oldest first. *)
Definition raised (tr : list event) : list exn :=
  omap (λ ev, match ev with
              | Ev _ (inl e) => Some e
              | _ => None
              end) tr.

(** The [sb.glue] calls of a run. *)
Definition is_glue (ev : event) : bool :=
  match ev with
  | Ev (sb_glue _ _) _ => true
  | _ => false
  end.

Definition glue_calls (tr : list event) : list event :=
  filter (λ ev, is_glue ev = true) tr.

Section RunSpec.
Context `{Builtins}.

(** The message a timing cell prints for an interval in seconds. *)
Definition time_message (prefix : string) (seconds : float) : value :=
  VStr (lit prefix ++ format_3f (seconds / 3600)%float ++ lit " hrs").

(** What is printed is what the run obtained: the training time from the
    first interval read, the prediction time from the second, then the
    report as [classification_report] returned it, which is also what
    [report] is bound to; nothing else is printed. *)
Definition prints_what_it_got (m : gmap string value) (tr : list event) : Prop :=
  given (printed tr !! 0%nat)
    (λ v, Some v = time_message "Training time : " <$> intervals tr !! 0%nat) ∧
  given (printed tr !! 1%nat)
    (λ v, Some v = time_message "Prediction time : " <$> intervals tr !! 1%nat) ∧
  given (printed tr !! 2%nat)
    (λ v, Some v = VStr <$> returned_report tr) ∧
  (length (printed tr) ≤ 3)%nat ∧
  m !! "report" = VStr <$> returned_report tr.

(** The metrics recorded are those of the report this run obtained: the
    [sb.glue] calls record, in order, the metrics of the report that
    [classification_report] returned, none is made without a report, and a
    run that completes has made all three. *)
Definition records_returned_report (r : result unit) (tr : list event) : Prop :=
  match returned_report tr with
  | Some report =>
      Forall2 (records report) (glue_calls tr)
              (take (length (glue_calls tr)) metric_fields)
  | None => glue_calls tr = []
  end ∧
  match r with
  | inr _ => length (glue_calls tr) = 3%nat
  | inl _ => True
  end.

(** Where the exception of a run comes from: it is the one an external
    call raised last; or it is the [NameError] for [preds], left unbound
    when [predict] raised and the timer's [__exit__] swallowed the
    exception; or it is the [IndexError] or [ValueError] of the metric
    extraction on a report that is not well shaped. *)
Definition failure_explained (r : result unit) (tr : list event) : Prop :=
  match r with
  | inr _ => True
  | inl e =>
      last (raised tr) = Some e ∨
      (e = PyErr NameError ∧ predict_swallowed tr = true) ∨
      ((e = PyErr IndexError ∨ e = PyErr ValueError) ∧
       ∃ report, returned_report tr = Some report ∧ well_shaped report = false)
  end.

End RunSpec.

(** The names the import cell binds. *)
Definition import_names : list string :=
  ["sys"; "os"; "sb"; "torch"; "TemporaryDirectory"; "wikigold"; "Timer";
   "classification_report"; "TokenClassifier"].

(** The names the notebook binds. *)
Definition notebook_names : list string :=
  "QUICK_RUN" :: import_names ++ configuration_names ++ later_names.

(** The sample report with its per-class rows cut. *)
Definition summary_only : pystr := lit
"micro avg       0.85      0.87      0.86      1073
macro avg       0.83      0.85      0.84      1073
".

(** A machine whose context manager returns a true value from [__exit__],
    and on which prediction runs out of memory. *)
Definition predict_fails_quietly : script :=
  Script true (lit "/tmp/tmpk3x9v2ab") 5 25.5 sample_report true
    (λ R c, match c with model_predict _ _ => Some out_of_memory | _ => None end).

(** * Reasoning about cells: weakest preconditions *)

(** [wp m s Q]: run from [s], the computation [m] ends with an outcome and a
    state that satisfy [Q]. *)
Definition wp {A} (m : M A) (s : state) (Q : result A → state → Prop) : Prop :=
  Q (m s).1 (m s).2.

Lemma wp_ret {A} (a : A) s (Q : result A → state → Prop) :
  Q (inr a) s → wp (ret a) s Q.
Proof. auto. Qed.

Lemma wp_raise {A} e s (Q : result A → state → Prop) :
  Q (inl e) s → wp (raise e) s Q.
Proof. auto. Qed.

Lemma wp_lift {A} (r : result A) s (Q : result A → state → Prop) :
  Q r s → wp (lift r) s Q.
Proof. auto. Qed.

Lemma wp_bind {A B} (m : M A) (k : A → M B) s Q :
  wp m s (λ r s', match r with
                  | inr a => wp (k a) s' Q
                  | inl e => Q (inl e) s'
                  end) →
  wp (m ≫= k) s Q.
Proof.
  unfold wp, mbind, M_bind, bind.
  destruct (m s) as [[e|a] s']; simpl; auto.
Qed.

Lemma wp_assign x v s (Q : result unit → state → Prop) :
  Q (inr tt) (State (<[x:=v]> (ns s)) (trace s)) → wp (assign x v) s Q.
Proof. auto. Qed.

Lemma wp_get x s r (Q : result value → state → Prop) :
  ns s !! x = r →
  match r with
  | Some v => Q (inr v) s
  | None => Q (inl (PyErr NameError)) s
  end →
  wp (get x) s Q.
Proof. intros <-. unfold wp, get. destruct (ns s !! x); auto. Qed.

Lemma wp_ext (w : world) {R} (c : call R) s Q :
  (∀ r, w R (trace s) c = r → Q r (State (ns s) (trace s ++ [Ev c r]))) →
  wp (ext w c) s Q.
Proof. intros HQ. apply HQ. reflexivity. Qed.

Lemma wp_ext_Forall (P : event → Prop) (w : world) {R} (c : call R) s Q :
  Forall P (trace s) →
  (∀ r, P (Ev c r)) →
  (∀ r h, Forall P h → Q r (State (ns s) h)) →
  wp (ext w c) s Q.
Proof.
  intros Hh Hc HQ. apply HQ, Forall_app. split; [exact Hh|].
  by repeat constructor.
Qed.

Lemma wp_attempt {A} (m : M A) s (Q : result (result A) → state → Prop) :
  wp m s (λ r s', Q (inr r) s') → wp (attempt m) s Q.
Proof. unfold wp, attempt. destruct (m s); auto. Qed.

(** A conditional whose branches only assign: the two namespaces are joined
    under the condition, without a case split. *)
Lemma wp_if_assigns (b : bool) (m1 m2 : M unit) s n1 n2
    (Q : result unit → state → Prop) :
  m1 s = (inr tt, State n1 (trace s)) →
  m2 s = (inr tt, State n2 (trace s)) →
  Q (inr tt) (State (if b then n1 else n2) (trace s)) →
  wp (if b then m1 else m2) s Q.
Proof. unfold wp. intros E1 E2. destruct b; rewrite ?E1, ?E2; auto. Qed.

(** Indexing raises nothing but [IndexError]. *)
Lemma index_raises {A} (l : list A) i e :
  index l i = inl e → e = PyErr IndexError.
Proof. unfold index. destruct (l !! i); congruence. Qed.

Lemma index_from_end_raises {A} (l : list A) k e :
  index_from_end l k = inl e → e = PyErr IndexError.
Proof.
  unfold index_from_end. case_decide; [apply index_raises | congruence].
Qed.

Ltac index_errors :=
  repeat match goal with
         | Hix : index_from_end _ _ = inl _ |- _ =>
             apply index_from_end_raises in Hix; subst
         | Hix : index _ _ = inl _ |- _ =>
             apply index_raises in Hix; subst
         end.

(** Lookups in a namespace written as a chain of assignments. *)
Lemma lookup_skip (m : gmap string value) i j v r :
  i ≠ j → m !! j = r → <[i:=v]> m !! j = r.
Proof. intros Hij <-. by apply lookup_insert_ne. Qed.

Lemma lookup_if (b : bool) (m1 m2 : gmap string value) x r :
  m1 !! x = r → m2 !! x = r → (if b then m1 else m2) !! x = r.
Proof. by destruct b. Qed.

Lemma lookup_if_Some (b : bool) (m1 m2 : gmap string value) x v1 v2 :
  m1 !! x = Some v1 → m2 !! x = Some v2 →
  (if b then m1 else m2) !! x = Some (if b then v1 else v2).
Proof. by destruct b. Qed.

Ltac solve_lookup :=
  lazymatch goal with
  | |- <[?k:=_]> _ !! ?k = _ => apply lookup_insert_eq
  | |- <[_:=_]> _ !! _ = _ =>
      apply lookup_skip; [first [discriminate | assumption] | solve_lookup]
  | |- ∅ !! _ = _ => apply lookup_empty
  | |- (if _ then _ else _) !! _ = _ =>
      first [ apply lookup_if; solve_lookup
            | apply lookup_if_Some; solve_lookup ]
  | |- _ => first [eassumption | reflexivity]
  end.

Ltac head_of t :=
  lazymatch t with
  | ?f _ => head_of f
  | _ => t
  end.

(** Case analysis on [x], unless a hypothesis already tells what [x] is. *)
Ltac case_known x :=
  first [ match goal with
          | Hx : x = _ |- _ => rewrite Hx
          end
        | destruct x eqn:? ].

(** One step of symbolic execution; [at_ext] is what to do at an external
    call. *)
Ltac wp_step_gen at_ext :=
  cbv beta iota;
  lazymatch goal with
  | |- wp (_ ≫= _) _ _ => apply wp_bind
  | |- wp (ret _) _ _ => apply wp_ret
  | |- wp (raise _) _ _ => apply wp_raise
  | |- wp (lift _) _ _ =>
      apply wp_lift; cbv beta;
      lazymatch goal with
      | |- match ?r with _ => _ end => case_known r
      | _ => idtac
      end
  | |- wp (assign _ _) _ _ => apply wp_assign; cbn [ns trace]
  | |- wp (get _) _ _ =>
      eapply wp_get; [cbn [ns]; solve_lookup|];
      try lazymatch goal with
          | |- match ?m !! ?x with _ => _ end => destruct (m !! x) eqn:?
          end
  | |- wp (attempt _) _ _ => apply wp_attempt
  | |- wp (ext _ _) _ _ => at_ext
  | |- wp (truth _ _) _ _ => unfold truth; cbn [truthy]
  | |- wp (if _ then _ else _) _ _ =>
      first [ eapply wp_if_assigns; [reflexivity | reflexivity | cbn [ns trace]]
            | lazymatch goal with
              | |- wp (if ?b then _ else _) _ _ => destruct b eqn:?
              end ]
  | |- wp (match ?x with _ => _ end) _ _ =>
      first [progress cbn [truthy] | case_known x]
  | |- wp (let '(_, _) := ?x in _) _ _ => destruct x
  | |- wp ?m _ _ => let f := head_of m in unfold f
  end.

(** At an external call the world's answer is split into the call raising
    and the call returning; [on_answer] is handed the equation that defines
    the answer. *)
Ltac split_answer on_answer :=
  let r := fresh "r" in
  let Hr := fresh "Hr" in
  apply wp_ext; cbn [ns trace]; intros r Hr; destruct r; on_answer Hr.

Ltac wp_step_with on_answer := wp_step_gen ltac:(split_answer on_answer).

Ltac forget_answer Hr := clear Hr.

Ltac wp_step := wp_step_with forget_answer.

(** For a property [P] of every event of the trace: the new event is shown
    to have it and the trace is then forgotten, but for that property. *)
Ltac extend_Forall :=
  let r := fresh "r" in
  let h := fresh "h" in
  let Hh := fresh "Hh" in
  eapply wp_ext_Forall;
  [ eassumption
  | intros r; first [exact I | reflexivity]
  | cbn [ns]; intros r h Hh; destruct r ].

Ltac wp_run := repeat wp_step; cbv beta iota.

(** Symbolic execution that keeps the answers of the world as hypotheses. *)
Ltac keep_answer Hr := idtac.

(** Symbolic execution of a second run against answers already known: an
    answer is identified with the one recorded for the same call after the
    same history. *)
Ltac same_answer Hr :=
  try match goal with
      | Hold : ?l = _ |- _ =>
          tryif constr_eq Hold Hr then fail else
            lazymatch type of Hr with
            | l = _ => rewrite Hold in Hr; simplify_eq
            end
      end.

(** * The configuration cell *)

Section Configuration.
Context `{Builtins}.
Variable w : world.

(** The three quick-run constants are settled before the cell makes its
    first external call, so they hold however the rest of the cell goes. *)
Lemma configuration_quick_constants q m h :
  m !! "QUICK_RUN" = Some (VBool q) →
  let m' := ns (cell_configuration w (State m h)).2 in
  m' !! "TRAIN_SAMPLE_RATIO" = Some (if q then VFloat 0.1 else VInt 1) ∧
  m' !! "TEST_SAMPLE_RATIO" = Some (if q then VFloat 0.1 else VInt 1) ∧
  m' !! "NUM_TRAIN_EPOCHS" = Some (VInt (if q then 1 else 5)).
Proof.
  intros Hq.
  change (wp (cell_configuration w) (State m h)
            (λ _ s,
               ns s !! "TRAIN_SAMPLE_RATIO"
                 = Some (if q then VFloat 0.1 else VInt 1) ∧
               ns s !! "TEST_SAMPLE_RATIO"
                 = Some (if q then VFloat 0.1 else VInt 1) ∧
               ns s !! "NUM_TRAIN_EPOCHS" = Some (VInt (if q then 1 else 5)))).
  wp_run; cbn [ns]; destruct q; repeat split; solve_lookup.
Qed.

(** What a completed configuration cell leaves behind: the literal
    constants, two directory names the world chose, and a batch size that
    follows the answer of [torch.cuda.is_available()], the last call of
    the cell. *)
Lemma configuration_completed q m h :
  m !! "QUICK_RUN" = Some (VBool q) →
  let out := cell_configuration w (State m h) in
  out.1 = inr tt →
  Forall (λ c, ns out.2 !! c.1 = Some c.2) (literal_constants q) ∧
  ∃ data_path cache_dir cuda,
    ns out.2 !! "DATA_PATH" = Some (VStr data_path) ∧
    ns out.2 !! "CACHE_DIR" = Some (VStr cache_dir) ∧
    last (trace out.2) = Some (Ev torch_cuda_is_available (inr cuda)) ∧
    ns out.2 !! "BATCH_SIZE" = Some (VInt (if cuda then 16 else 8)).
Proof.
  intros Hq.
  change (wp (cell_configuration w) (State m h)
            (λ r s,
               r = inr tt →
               Forall (λ c, ns s !! c.1 = Some c.2) (literal_constants q) ∧
               ∃ data_path cache_dir cuda,
                 ns s !! "DATA_PATH" = Some (VStr data_path) ∧
                 ns s !! "CACHE_DIR" = Some (VStr cache_dir) ∧
                 last (trace s)
                   = Some (Ev torch_cuda_is_available (inr cuda)) ∧
                 ns s !! "BATCH_SIZE"
                   = Some (VInt (if cuda then 16 else 8)))).
  wp_run; try discriminate.
  intros _. cbn [ns trace]. split.
  - unfold literal_constants.
    destruct q, b; repeat constructor; cbn [fst snd]; solve_lookup.
  - eexists _, _, b. rewrite last_snoc.
    destruct b; repeat split; solve_lookup.
Qed.

(** C1.  After the configuration cell has run from a state in which
    [QUICK_RUN] holds the flag [q]: with [q] true,
    [TRAIN_SAMPLE_RATIO == 0.1], [TEST_SAMPLE_RATIO == 0.1] and
    [NUM_TRAIN_EPOCHS == 1]; with [q] false, [TRAIN_SAMPLE_RATIO == 1.0],
    [TEST_SAMPLE_RATIO == 1.0] and [NUM_TRAIN_EPOCHS == 5] (the full-run
    ratios are stored as the integer [1], which equals [1.0]). *)
Theorem quick_run_constants (q : bool) (s : state) :
  ns s !! "QUICK_RUN" = Some (VBool q) →
  let m' := ns (cell_configuration w s).2 in
  if q then
    holds m' "TRAIN_SAMPLE_RATIO" (VFloat 0.1) ∧
    holds m' "TEST_SAMPLE_RATIO" (VFloat 0.1) ∧
    holds m' "NUM_TRAIN_EPOCHS" (VInt 1)
  else
    holds m' "TRAIN_SAMPLE_RATIO" (VFloat 1.0) ∧
    holds m' "TEST_SAMPLE_RATIO" (VFloat 1.0) ∧
    holds m' "NUM_TRAIN_EPOCHS" (VInt 5).
Proof.
  destruct s as [m h]. intros Hq.
  destruct (configuration_quick_constants q m h Hq) as (Htrain & Htest & Hep).
  cbn zeta. unfold holds.
  destruct q; repeat split; eexists; (split; [eassumption | reflexivity]).
Qed.

(** C3.  The configuration cell run with [QUICK_RUN = True] and with
    [QUICK_RUN = False], in the same world from otherwise equal states,
    leaves the same value in each of [TEST_DATA_FRACTION], [RANDOM_SEED],
    [MODEL_NAME], [DO_LOWER_CASE], [MAX_SEQ_LENGTH], [TRAILING_PIECE_TAG],
    [DEVICE] and [BATCH_SIZE]; the two runs also end alike and make the
    same external calls. *)
Theorem quick_run_touches_nothing_else (m : gmap string value) (h : list event) :
  let run q :=
    cell_configuration w (State (<["QUICK_RUN" := VBool q]> m) h) in
  Forall (λ x, ns (run true).2 !! x = ns (run false).2 !! x)
         other_constants ∧
  (run true).1 = (run false).1 ∧
  trace (run true).2 = trace (run false).2.
Proof.
  intros run. subst run. cbv beta.
  change (wp (cell_configuration w)
            (State (<["QUICK_RUN" := VBool true]> m) h)
            (λ r1 s1,
               wp (cell_configuration w)
                 (State (<["QUICK_RUN" := VBool false]> m) h)
                 (λ r2 s2,
                    Forall (λ x, ns s1 !! x = ns s2 !! x) other_constants ∧
                    r1 = r2 ∧ trace s1 = trace s2))).
  repeat wp_step_with same_answer; cbv beta iota;
    cbn [ns trace]; cbv iota;
    (split; [|split; reflexivity]);
    unfold other_constants; repeat constructor;
    (etrans; [solve_lookup | symmetry; solve_lookup]).
Qed.

End Configuration.

(** C1 at work: the shipped notebook with the flag switched on, on a machine
    where everything works. *)
Lemma quick_run_constants_witness :
  let m' :=
    ns (cell_configuration (play calm) (run_first (play calm) 2 true).2).2 in
  holds m' "TRAIN_SAMPLE_RATIO" (VFloat 0.1) ∧
  holds m' "TEST_SAMPLE_RATIO" (VFloat 0.1) ∧
  holds m' "NUM_TRAIN_EPOCHS" (VInt 1).
Proof.
  apply (quick_run_constants (play calm) true
           (run_first (play calm) 2 true).2).
  vm_compute. reflexivity.
Defined.

(** C9 as stated fails: [BATCH_SIZE] is not the only configuration constant
    that depends on the execution environment.  [DATA_PATH] is the name of
    a temporary directory; on two machines that differ only in that name
    the configuration cell completes and leaves different paths. *)
Lemma batch_size_not_the_only_one :
  ¬ (∀ x, x ∈ configuration_names → environment_dependent x →
          x = "BATCH_SIZE").
Proof.
  intros Honly.
  assert (Hdep : environment_dependent "DATA_PATH").
  { exists (play calm), (play calm_elsewhere),
      (State {["QUICK_RUN" := VBool false]} []).
    split; [reflexivity|]. split; [reflexivity|].
    vm_compute. discriminate. }
  specialize (Honly "DATA_PATH").
  assert (Hin : "DATA_PATH" ∈ configuration_names).
  { unfold configuration_names. repeat constructor. }
  specialize (Honly Hin Hdep). discriminate.
Qed.

(** C9, amended.  When the configuration cell completes, [BATCH_SIZE] is 16
    if [torch.cuda.is_available()] returned true and 8 otherwise, whatever
    [QUICK_RUN] is; and apart from [BATCH_SIZE], [DATA_PATH] and [CACHE_DIR]
    every configuration constant has the same value in any two worlds in
    which the cell completes. *)
Theorem batch_size_follows_cuda `{Builtins} (w1 w2 : world) (q : bool)
    (s : state) :
  ns s !! "QUICK_RUN" = Some (VBool q) →
  let out1 := cell_configuration w1 s in
  let out2 := cell_configuration w2 s in
  out1.1 = inr tt →
  out2.1 = inr tt →
  (∃ cuda : bool,
     last (trace out1.2) = Some (Ev torch_cuda_is_available (inr cuda)) ∧
     ns out1.2 !! "BATCH_SIZE" = Some (VInt (if cuda then 16 else 8))) ∧
  Forall (λ x, x ∈ ["BATCH_SIZE"; "DATA_PATH"; "CACHE_DIR"] ∨
               ns out1.2 !! x = ns out2.2 !! x)
         configuration_names.
Proof.
  destruct s as [m h]. intros Hq out1 out2 Hout1 Hout2.
  destruct (configuration_completed w1 q m h Hq Hout1)
    as (Hlit1 & p1 & c1 & cuda & _ & _ & Hlast & Hbatch).
  destruct (configuration_completed w2 q m h Hq Hout2) as (Hlit2 & _).
  split; [by exists cuda|].
  fold out1 in Hlit1. fold out2 in Hlit2.
  unfold literal_constants in Hlit1, Hlit2.
  repeat match goal with
         | Hall : Forall _ (_ :: _) |- _ =>
             apply Forall_cons in Hall; destruct Hall as [? Hall]
         end.
  cbn [fst snd] in *.
  unfold configuration_names.
  repeat (apply Forall_cons; split;
          [first [right; congruence | left; repeat constructor]|]).
  constructor.
Qed.

(** C9 amended, at work on two machines with a GPU that differ in the name
    of the temporary directory. *)
Lemma batch_size_follows_cuda_witness :
  let s := (run_first (play calm) 2 false).2 in
  let out1 := cell_configuration (play calm) s in
  let out2 := cell_configuration (play calm_elsewhere) s in
  (∃ cuda : bool,
     last (trace out1.2) = Some (Ev torch_cuda_is_available (inr cuda)) ∧
     ns out1.2 !! "BATCH_SIZE" = Some (VInt (if cuda then 16 else 8))) ∧
  Forall (λ x, x ∈ ["BATCH_SIZE"; "DATA_PATH"; "CACHE_DIR"] ∨
               ns out1.2 !! x = ns out2.2 !! x)
         configuration_names.
Proof.
  apply (batch_size_follows_cuda (play calm) (play calm_elsewhere) false
           (run_first (play calm) 2 false).2).
  - vm_compute. reflexivity.
  - vm_compute. reflexivity.
  - vm_compute. reflexivity.
Defined.


(** * The cells after the configuration cell assign none of its constants *)

Section Frame.
Context `{Builtins}.
Variable w : world.

Lemma run_cells_keeps x (cs : list (M unit)) :
  Forall (keeps x) cs → keeps x (run_cells cs).
Proof.
  induction 1 as [|c cs Hc _ IH]; intros s; [reflexivity|].
  cbn [run_cells]. unfold mbind, M_bind, bind.
  specialize (Hc s). destruct (c s) as [[e|[]] s']; cbn [fst snd] in *.
  - exact Hc.
  - rewrite IH. exact Hc.
Qed.

Lemma run_cells_app (cs1 cs2 : list (M unit)) s :
  run_cells (cs1 ++ cs2) s =
  match run_cells cs1 s with
  | (inr _, s') => run_cells cs2 s'
  | (inl e, s') => (inl e, s')
  end.
Proof.
  revert s. induction cs1 as [|c cs1 IH]; intros s; [reflexivity|].
  cbn [app run_cells]. unfold mbind, M_bind, bind.
  destruct (c s) as [[e|[]] s']; [reflexivity|]. apply IH.
Qed.

(** Each of the six later cells writes only names of [later_names]. *)
Lemma later_cells_keep x q :
  x ∉ later_names → Forall (keeps x) (drop 3 (cells w q)).
Proof.
  intros Hx. unfold later_names in Hx.
  rewrite !not_elem_of_cons in Hx. destruct_and!.
  assert (∀ y : string, x ≠ y → y ≠ x) as Hsym by (intros y Hy; congruence).
  repeat match goal with
         | Hne : x ≠ _ |- _ => apply Hsym in Hne
         end.
  cbn [drop cells].
  repeat (apply Forall_cons; split); [..|constructor]; intros [m h];
    match goal with
    | |- ns (?c _).2 !! _ = _ =>
        change (wp c (State m h) (λ _ s', ns s' !! x = m !! x))
    end;
    wp_run; cbn [ns]; solve_lookup.
Qed.

Lemma configuration_names_not_later :
  Forall (λ x, x ∉ later_names) configuration_names.
Proof.
  unfold configuration_names.
  repeat constructor; apply (bool_decide_unpack _); vm_compute; exact I.
Qed.

(** C5.  None of the configuration constants exists before the
    configuration cell, the third code cell; and after any number [n >= 3]
    of cells of a run each has the binding the configuration cell left:
    no later cell assigns it. *)
Theorem configuration_is_final (q : bool) (n : nat) :
  (3 ≤ n)%nat →
  Forall (λ x, ns (run_first w 2 q).2 !! x = None ∧
               ns (run_first w n q).2 !! x = ns (run_first w 3 q).2 !! x)
         configuration_names.
Proof.
  intros Hn.
  pose proof configuration_names_not_later as Hnot.
  rewrite Forall_forall in Hnot. apply Forall_forall. intros x Hx.
  specialize (Hnot x Hx). split.
  - unfold run_first, fresh_kernel. cbn [take cells].
    change (wp (run_cells [cell_quick_run q; cell_imports w]) (State ∅ [])
              (λ _ s, ns s !! x = None)).
    clear Hnot. revert Hx. unfold configuration_names.
    rewrite !elem_of_cons, elem_of_nil. intros Hx. cbn [run_cells].
    destruct_or!; try contradiction; subst x; wp_run; cbn [ns]; solve_lookup.
  - destruct n as [|[|[|k]]]; [lia..|]. clear Hn.
    unfold run_first.
    change (take (S (S (S k))) (cells w q))
      with (take 3 (cells w q) ++ take k (drop 3 (cells w q))).
    rewrite run_cells_app.
    destruct (run_cells (take 3 (cells w q)) fresh_kernel)
      as [[e|[]] s'] eqn:Hthree; [reflexivity|].
    cbn [snd]. apply run_cells_keeps, Forall_take.
    by apply later_cells_keep.
Qed.

End Frame.

(** C5 at work: the whole notebook, nine cells, on a machine where
    everything works. *)
Lemma configuration_is_final_witness :
  Forall (λ x, ns (run_first (play calm) 2 false).2 !! x = None ∧
               ns (run_first (play calm) 9 false).2 !! x
               = ns (run_first (play calm) 3 false).2 !! x)
         configuration_names.
Proof.
  apply (configuration_is_final (play calm) false 9). lia.
Defined.

(** * The device selector is never read *)

Section Device.
Context `{Builtins}.
Variable w : world.

Lemma run_cells_device_blind (cs : list (M unit)) :
  Forall device_blind cs → device_blind (run_cells cs).
Proof.
  induction 1 as [|c cs Hc _ IH]; intros v m h; [by repeat split|].
  cbn [run_cells]. unfold mbind, M_bind, bind. cbv zeta.
  specialize (Hc v m h). cbv zeta in Hc.
  destruct (c (State (<["DEVICE" := v]> m) h)) as [r1 [m1 h1]].
  destruct (c (State m h)) as [r2 [m2 h2]].
  cbn [fst snd ns trace] in Hc. destruct Hc as (-> & -> & ->).
  destruct r2 as [e|[]]; [by repeat split|]. apply IH.
Qed.

(** Each cell after the configuration cell is run twice, with and without
    the other binding of [DEVICE], against the same answers. *)
Lemma later_cells_device_blind (q : bool) :
  Forall device_blind (drop 3 (cells w q)).
Proof.
  cbn [drop cells].
  repeat (apply Forall_cons; split); [..|constructor]; intros v m h; cbv zeta;
    match goal with
    | |- fst (?c _) = _ ∧ _ =>
        change (wp c (State (<["DEVICE" := v]> m) h)
                  (λ r1 s1,
                     wp c (State m h)
                       (λ r2 s2,
                          r1 = r2 ∧ trace s1 = trace s2 ∧
                          ns s1 = <["DEVICE" := v]> (ns s2))))
    end;
    repeat wp_step_with same_answer; cbv beta iota; cbn [ns trace];
    (split; [reflexivity|split; [reflexivity|]]);
    rewrite ?(insert_insert_ne _ _ "DEVICE") by done; reflexivity.
Qed.

End Device.

(** * The whole notebook *)

Section Run.
Context `{Builtins}.
Variable w : world.


(** The calls of a run carry the keywords written in the cells. *)
Lemma calls_device_configured (q : bool) :
  Forall device_configured (trace (notebook w q).2).
Proof.
  change (wp (run_cells (cells w q)) (State ∅ [])
            (λ _ s, Forall device_configured (trace s))).
  assert (Forall device_configured []) by constructor.
  cbn [cells run_cells].
  repeat wp_step_gen
    ltac:(let r := fresh "r" in
          let h := fresh "h" in
          let Hh := fresh "Hh" in
          eapply wp_ext_Forall;
          [ eassumption
          | intros r; repeat split; reflexivity
          | cbn [ns]; intros r h Hh; destruct r ]);
    cbv beta iota; assumption.
Qed.

(** The configuration cell leaves [DEVICE] at ["cuda"]. *)
Lemma device_is_cuda (q : bool) :
  match (run_first w 3 q).1 with
  | inr _ => ns (run_first w 3 q).2 !! "DEVICE" = Some (VStr (lit "cuda"))
  | inl _ => True
  end.
Proof.
  change (wp (run_cells (take 3 (cells w q))) (State ∅ [])
            (λ r s, match r with
                    | inr _ => ns s !! "DEVICE" = Some (VStr (lit "cuda"))
                    | inl _ => True
                    end)).
  cbn [take cells run_cells]. wp_run; first [exact I | cbn [ns]; solve_lookup].
Qed.

(** C7.  Provided the timer's [__exit__], handed an exception, returns a
    false value and raises nothing: the exception of the first external
    call that raises is the outcome of the run, unchanged, and after that
    call nothing is called but that [__exit__] of the [with] block the call
    was in.  A run in which no external call raises does not end on a
    library exception. *)
Theorem exceptions_propagate (q : bool) :
  timer_passes_exceptions w →
  let out := notebook w q in
  match first_raise (trace out.2) with
  | Some (e, after) => out.1 = inl e ∧ forallb is_Timer_exit after = true
  | None => ∀ cls msg, out.1 ≠ inl (ExtErr cls msg)
  end.
Proof.
  intros Htimer.
  change (wp (run_cells (cells w q)) (State ∅ [])
            (λ r s, match first_raise (trace s) with
                    | Some (e, after) =>
                        r = inl e ∧ forallb is_Timer_exit after = true
                    | None => ∀ cls msg, r ≠ inl (ExtErr cls msg)
                    end)).
  cbn [cells run_cells].
  repeat wp_step_with
    ltac:(fun Hr =>
            lazymatch type of Hr with
            | _ _ _ (Timer_exit _ (Some _)) = _ =>
                rewrite Htimer in Hr; simplify_eq
            | _ => clear Hr
            end);
    cbv beta iota; cbn [trace app first_raise]; index_errors;
    first [ split; reflexivity | intros ? ?; discriminate ].
Qed.


End Run.

(** C8 as stated fails: [num_gpus] is not the one device argument of
    [fit].  On a machine where everything works, the [fit] call of the run
    carries [local_rank=-1] beside [num_gpus=None]. *)
Lemma num_gpus_not_the_only_one :
  ¬ Forall solely_num_gpus (trace (notebook (play calm) false).2).
Proof.
  intros Hall. rewrite Forall_forall in Hall.
  let ev := eval vm_compute in
              (trace (notebook (play calm) false).2 !! 20%nat) in
  assert (trace (notebook (play calm) false).2 !! 20%nat = ev) as Hfit
    by (vm_compute; reflexivity).
  apply list_elem_of_lookup_2, Hall in Hfit.
  destruct Hfit as [v Hv]. vm_compute in Hv. discriminate Hv.
Qed.

(** The hypothesis on the timer is about the library, and the [with]
    statement makes it necessary: were [__exit__] to return a true value,
    the error of [fit] would be swallowed and the notebook would run on to
    the end. *)
Remark swallowing_manager_hides_error :
  let out := notebook (play fit_fails_quietly) false in
  out.1 = inr tt ∧
  ∃ after, first_raise (trace out.2) = Some (out_of_memory, after).
Proof. vm_compute. split; [reflexivity | eexists; reflexivity]. Qed.

(** C7 at work: training runs out of GPU memory; the timer of the [with]
    block lets the error through. *)
Lemma exceptions_propagate_witness :
  let out := notebook (play fit_fails) false in
  match first_raise (trace out.2) with
  | Some (e, after) => out.1 = inl e ∧ forallb is_Timer_exit after = true
  | None => ∀ cls msg, out.1 ≠ inl (ExtErr cls msg)
  end.
Proof.
  apply (exceptions_propagate (play fit_fails) false).
  intros h mgr e. reflexivity.
Defined.

(** * The metric extraction *)

Section Metrics.
Context `{Builtins}.
Variable w : world.

Lemma index_found {A} (l : list A) i x : index l i = inr x → l !! i = Some x.
Proof. unfold index. destruct (l !! i); congruence. Qed.

Lemma index_missing {A} (l : list A) i e :
  index l i = inl e → e = PyErr IndexError ∧ l !! i = None.
Proof. unfold index. destruct (l !! i); [congruence|]. by intros [= <-]. Qed.

(** [lines[-2]] is the second-to-last line. *)
Lemma second_to_last_found report line :
  index_from_end (str_split LF report) 2 = inr line →
  second_to_last_line report = Some line.
Proof.
  unfold index_from_end, second_to_last_line. case_decide; [|congruence].
  intros Hix%index_found. rewrite reverse_lookup by lia.
  rewrite <- Hix. f_equal.
Qed.

Lemma second_to_last_missing report e :
  index_from_end (str_split LF report) 2 = inl e →
  e = PyErr IndexError ∧ second_to_last_line report = None.
Proof.
  unfold index_from_end, second_to_last_line. case_decide.
  - intros [_ Hix]%index_missing. apply lookup_ge_None in Hix. lia.
  - intros [= <-]. split; [reflexivity|].
    apply lookup_ge_None. rewrite length_reverse. lia.
Qed.

Lemma metric_at_line report line i :
  second_to_last_line report = Some line →
  metric_at report i = str_split_ws line !! i ≫= float_of_str.
Proof. intros Hline. unfold metric_at. by rewrite Hline. Qed.

Lemma well_shaped_line report line :
  second_to_last_line report = Some line →
  well_shaped report =
    bool_decide (5 ≤ length (str_split_ws line))%nat &&
    forallb (λ i, bool_decide
                    (is_Some (str_split_ws line !! i ≫= float_of_str)))
            [2%nat; 3%nat; 4%nat].
Proof.
  intros Hline. unfold well_shaped. rewrite Hline. cbn [forallb].
  by rewrite !(metric_at_line _ _ _ Hline).
Qed.

(** The outcomes of indexing and of [float], as facts about the report. *)
Ltac metric_facts :=
  repeat match goal with
         | Hix : index_from_end (str_split LF _) 2 = inr _ |- _ =>
             apply second_to_last_found in Hix
         | Hix : index_from_end (str_split LF _) 2 = inl _ |- _ =>
             apply second_to_last_missing in Hix; destruct Hix as [-> Hix]
         | Hix : index _ _ = inr _ |- _ => apply index_found in Hix
         | Hix : index _ _ = inl _ |- _ =>
             apply index_missing in Hix; destruct Hix as [-> Hix]
         end.



(** C10.  From a state in which [report] is bound to the report string,
    the extraction cell completes only if the report is well shaped: its
    second-to-last line has at least five whitespace-separated fields and
    those at indices 2, 3 and 4 parse as floats.  When the [sb.glue] calls
    return, it completes on every well-shaped report and raises
    [IndexError] or [ValueError] on every other. *)
Theorem metrics_partial (s : state) (report : pystr) :
  ns s !! "report" = Some (VStr report) →
  let out := cell_metrics w s in
  (out.1 = inr tt → well_shaped report = true) ∧
  (glue_returns w →
   if well_shaped report then out.1 = inr tt
   else out.1 = inl (PyErr IndexError) ∨ out.1 = inl (PyErr ValueError)).
Proof.
  destruct s as [m h]. cbn [ns trace]. intros Hreport.
  change (wp (cell_metrics w) (State m h)
            (λ r _,
               (r = inr tt → well_shaped report = true) ∧
               (glue_returns w →
                if well_shaped report then r = inr tt
                else r = inl (PyErr IndexError) ∨ r = inl (PyErr ValueError)))).
  repeat wp_step_with keep_answer; cbv beta iota; metric_facts;
    (split; [intros Hout; try discriminate Hout | intros Hglue]);
    try match goal with
        | Hr : w _ _ (sb_glue _ _) = inl _ |- _ =>
            rewrite Hglue in Hr; discriminate Hr
        end;
    try match goal with
        | Hline : second_to_last_line _ = None |- _ =>
            unfold well_shaped; rewrite Hline; left; reflexivity
        end;
    erewrite well_shaped_line by eassumption; cbn [forallb];
    repeat match goal with
           | Hf : str_split_ws _ !! 4%nat = Some _ |- _ =>
               pose proof (lookup_lt_Some _ _ _ Hf); rewrite Hf; clear Hf
           | Hf : str_split_ws _ !! _ = _ |- _ =>
               rewrite Hf; clear Hf
           | Hx : float_of_str _ = _ |- _ =>
               cbn [mbind option_bind]; rewrite Hx; clear Hx
           end;
    cbn; rewrite ?andb_false_r, ?andb_true_r;
    rewrite ?bool_decide_true by lia;
    repeat match goal with u : unit |- _ => destruct u end;
    first [ reflexivity | left; reflexivity | right; reflexivity ].
Qed.

End Metrics.


(** C10 at work: a report whose summary line stops after the recall
    column, in a world whose [sb.glue] returns. *)
Lemma metrics_partial_witness :
  let out :=
    cell_metrics (play calm_short) (run_first (play calm_short) 8 false).2 in
  out.1 = inl (PyErr IndexError) ∨ out.1 = inl (PyErr ValueError).
Proof.
  apply (metrics_partial (play calm_short)
           (run_first (play calm_short) 8 false).2 short_report).
  - vm_compute. reflexivity.
  - intros h name x. reflexivity.
Defined.

(** The two examples of ill-shaped reports: the empty report has no
    second-to-last line, the short report no field at index 4. *)
Example metrics_of_empty_report :
  (cell_metrics (play calm) (State {["report" := VStr []]} [])).1
  = inl (PyErr IndexError).
Proof. vm_compute. reflexivity. Qed.

Example metrics_of_short_report :
  let out :=
    cell_metrics (play calm) (State {["report" := VStr short_report]} []) in
  out.1 = inl (PyErr IndexError) ∧ length (trace out.2) = 2%nat.
Proof. vm_compute. split; reflexivity. Qed.

Example metrics_of_sample_report :
  let out :=
    cell_metrics (play calm) (State {["report" := VStr sample_report]} []) in
  out.1 = inr tt ∧
  trace out.2 = [Ev (sb_glue (lit "precision") (VFloat 0.83)) (inr tt);
                 Ev (sb_glue (lit "recall") (VFloat 0.85)) (inr tt);
                 Ev (sb_glue (lit "f1") (VFloat 0.84)) (inr tt)].
Proof. vm_compute. split; reflexivity. Qed.

(** * Further properties of the cells and of a run *)

(** A statement about the outcome and the final state together, from the
    [wp] of the computation. *)
Lemma wp_unfold {A} (m : M A) s (P : result A * state → Prop) :
  wp m s (λ r s', P (r, s')) → P (m s).
Proof. unfold wp. by destruct (m s). Qed.

(** * More on the configuration cell *)

Section ConfigurationEdges.
Context `{Builtins}.
Variable w : world.

(** X1.  [if QUICK_RUN:] tests the truth value of whatever [QUICK_RUN]
    holds, not only [True] and [False]: from any state in which the flag is
    bound to [None], a number, a string or a list of strings, the
    configuration cell leaves both sampling ratios at 0.1 and the epoch
    count at 1 when the value is true in Python's sense (a non-zero number,
    a non-empty string or list), and at 1, 1 and 5 when it is false. *)
Theorem quick_run_truthiness (v : value) (b : bool) (s : state) :
  ns s !! "QUICK_RUN" = Some v →
  truthy v = inl b →
  let m' := ns (cell_configuration w s).2 in
  m' !! "TRAIN_SAMPLE_RATIO" = Some (if b then VFloat 0.1 else VInt 1) ∧
  m' !! "TEST_SAMPLE_RATIO" = Some (if b then VFloat 0.1 else VInt 1) ∧
  m' !! "NUM_TRAIN_EPOCHS" = Some (if b then VInt 1 else VInt 5).
Proof.
  destruct s as [m h]. cbn [ns]. intros Hq Hb.
  change (wp (cell_configuration w) (State m h)
            (λ _ s,
               ns s !! "TRAIN_SAMPLE_RATIO"
                 = Some (if b then VFloat 0.1 else VInt 1) ∧
               ns s !! "TEST_SAMPLE_RATIO"
                 = Some (if b then VFloat 0.1 else VInt 1) ∧
               ns s !! "NUM_TRAIN_EPOCHS"
                 = Some (if b then VInt 1 else VInt 5))).
  wp_run; cbn [ns]; repeat split; solve_lookup.
Qed.

(** X2.  Run before [QUICK_RUN] exists, the configuration cell stops at
    the test of the flag with [NameError]: it has made no call, and has set
    the test fraction, both ratios and the epoch count to their full-run
    values and nothing else. *)
Theorem configuration_without_flag (s : state) :
  ns s !! "QUICK_RUN" = None →
  cell_configuration w s =
  (inl (PyErr NameError),
   State (<["NUM_TRAIN_EPOCHS" := VInt 5]>
            (<["TEST_SAMPLE_RATIO" := VInt 1]>
               (<["TRAIN_SAMPLE_RATIO" := VInt 1]>
                  (<["TEST_DATA_FRACTION" := VFloat 0.3]> (ns s)))))
         (trace s)).
Proof.
  destruct s as [m h]. cbn [ns trace]. intros Hq.
  apply injective_projections; cbn [fst snd].
  - change (wp (cell_configuration w) (State m h)
              (λ r _, r = inl (PyErr NameError))).
    wp_run. reflexivity.
  - change (wp (cell_configuration w) (State m h)
              (λ _ s', s' =
                 State (<["NUM_TRAIN_EPOCHS" := VInt 5]>
                          (<["TEST_SAMPLE_RATIO" := VInt 1]>
                             (<["TRAIN_SAMPLE_RATIO" := VInt 1]>
                                (<["TEST_DATA_FRACTION" := VFloat 0.3]> m))))
                       h)).
    wp_run. reflexivity.
Qed.

End ConfigurationEdges.

(** The flag left at [1] switches the quick run on. *)
Lemma quick_run_truthiness_witness :
  let s := State {["QUICK_RUN" := VInt 1]} [] in
  let m' := ns (cell_configuration (play calm) s).2 in
  m' !! "TRAIN_SAMPLE_RATIO" = Some (VFloat 0.1) ∧
  m' !! "TEST_SAMPLE_RATIO" = Some (VFloat 0.1) ∧
  m' !! "NUM_TRAIN_EPOCHS" = Some (VInt 1).
Proof.
  apply (quick_run_truthiness (play calm) (VInt 1) true
           (State {["QUICK_RUN" := VInt 1]} [])).
  - vm_compute. reflexivity.
  - reflexivity.
Defined.

(** The configuration cell run first in a fresh kernel. *)
Lemma configuration_without_flag_witness :
  cell_configuration (play calm) fresh_kernel =
  (inl (PyErr NameError),
   State (<["NUM_TRAIN_EPOCHS" := VInt 5]>
            (<["TEST_SAMPLE_RATIO" := VInt 1]>
               (<["TRAIN_SAMPLE_RATIO" := VInt 1]>
                  (<["TEST_DATA_FRACTION" := VFloat 0.3]> (ns fresh_kernel)))))
         (trace fresh_kernel)).
Proof.
  apply (configuration_without_flag (play calm) fresh_kernel).
  vm_compute. reflexivity.
Defined.

(** * Cell 4 on its own *)

Section LoadCell.
Context `{Builtins}.
Variable w : world.

(** X3.  Cell 4 is all or nothing: when it raises, whether on an unbound
    constant or inside [load_dataset], the namespace is as before; when it
    completes, its last call is the [load_dataset] that returned and the
    four names are bound to the four objects returned, in order. *)
Theorem load_dataset_all_or_nothing (s : state) :
  let out := cell_load_dataset w s in
  match out.1 with
  | inl _ => ns out.2 = ns s
  | inr _ =>
      ∃ kw train test label_map dataset,
        last (trace out.2)
        = Some (Ev (wikigold_load_dataset kw)
                   (inr (train, test, label_map, dataset))) ∧
        ns out.2 =
        <["test_dataset" := VObj dataset]>
          (<["label_map" := VObj label_map]>
             (<["test_dataloader" := VObj test]>
                (<["train_dataloader" := VObj train]> (ns s))))
  end.
Proof.
  destruct s as [m h]. cbn [ns].
  change (wp (cell_load_dataset w) (State m h)
            (λ r s',
               match r with
               | inl _ => ns s' = m
               | inr _ =>
                   ∃ kw train test label_map dataset,
                     last (trace s')
                     = Some (Ev (wikigold_load_dataset kw)
                                (inr (train, test, label_map, dataset))) ∧
                     ns s' =
                     <["test_dataset" := VObj dataset]>
                       (<["label_map" := VObj label_map]>
                          (<["test_dataloader" := VObj test]>
                             (<["train_dataloader" := VObj train]> m)))
               end)).
  wp_run; cbn [ns trace]; try reflexivity.
  eexists _, _, _, _, _. rewrite last_snoc. split; reflexivity.
Qed.

(** The reads of cell 4: [load_dataset] is called, once, when all eleven
    constants the cell reads are bound; when one is not, the read raises
    [NameError] and nothing has happened. *)
Lemma load_dataset_reads (s : state) :
  let out := cell_load_dataset w s in
  if forallb (λ x, bool_decide (is_Some (ns s !! x))) load_reads
  then ∃ kw r, trace out.2 = trace s ++ [Ev (wikigold_load_dataset kw) r]
  else out = (inl (PyErr NameError), s).
Proof.
  destruct s as [m h]. cbn [ns trace]. unfold load_reads. cbn [forallb].
  apply (wp_unfold (cell_load_dataset w) (State m h)
           (λ out,
              if bool_decide (is_Some (m !! "DATA_PATH")) &&
                 (bool_decide (is_Some (m !! "TEST_DATA_FRACTION")) &&
                  (bool_decide (is_Some (m !! "RANDOM_SEED")) &&
                   (bool_decide (is_Some (m !! "TRAIN_SAMPLE_RATIO")) &&
                    (bool_decide (is_Some (m !! "TEST_SAMPLE_RATIO")) &&
                     (bool_decide (is_Some (m !! "MODEL_NAME")) &&
                      (bool_decide (is_Some (m !! "DO_LOWER_CASE")) &&
                       (bool_decide (is_Some (m !! "CACHE_DIR")) &&
                        (bool_decide (is_Some (m !! "MAX_SEQ_LENGTH")) &&
                         (bool_decide (is_Some (m !! "TRAILING_PIECE_TAG")) &&
                          (bool_decide (is_Some (m !! "BATCH_SIZE")) &&
                           true))))))))))
              then ∃ kw r,
                     trace out.2 = h ++ [Ev (wikigold_load_dataset kw) r]
              else out = (inl (PyErr NameError), State m h))).
  wp_run; cbn [ns trace fst snd];
    rewrite ?bool_decide_true by (eexists; reflexivity);
    rewrite ?bool_decide_false by (intros [? [=]]);
    cbn [andb]; rewrite ?andb_false_r; cbv iota;
    first [ reflexivity | eexists _, _; reflexivity ].
Qed.

(** The first three cells of a run leave all eleven constants bound when
    they complete, and at least one unbound when they stop on an
    exception, wherever that is. *)
Lemma configuration_binds_reads (q : bool) :
  let before := run_first w 3 q in
  forallb (λ x, bool_decide (is_Some (ns before.2 !! x))) load_reads
  = match before.1 with inr _ => true | inl _ => false end.
Proof.
  change (wp (run_cells (take 3 (cells w q))) (State ∅ [])
            (λ r s,
               forallb (λ x, bool_decide (is_Some (ns s !! x))) load_reads
               = match r with inr _ => true | inl _ => false end)).
  cbn [take cells run_cells]. wp_run; cbn [ns];
    destruct q;
    try match goal with b : bool |- _ => destruct b end;
    vm_compute; reflexivity.
Qed.

(** X4.  Cell 4 needs the configuration.  Run after the first three cells
    of a run, it calls [load_dataset], once, when they completed; when
    they stopped on an exception, in an import or anywhere in the
    configuration cell, it raises [NameError] and nothing has happened: no
    call, no binding. *)
Theorem load_dataset_needs_configuration (q : bool) :
  let before := run_first w 3 q in
  let out := cell_load_dataset w before.2 in
  match before.1 with
  | inr _ =>
      ∃ kw r, trace out.2 = trace before.2 ++ [Ev (wikigold_load_dataset kw) r]
  | inl _ => out = (inl (PyErr NameError), before.2)
  end.
Proof.
  intros before out.
  pose proof (load_dataset_reads before.2) as Hreads. cbv zeta in Hreads.
  pose proof (configuration_binds_reads q) as Hbound. cbv zeta in Hbound.
  fold before in Hbound. rewrite Hbound in Hreads.
  destruct (before.1); exact Hreads.
Qed.

End LoadCell.

(** Cell 4 run in a fresh kernel. *)
Example load_dataset_in_fresh_kernel :
  cell_load_dataset (play calm) fresh_kernel
  = (inl (PyErr NameError), fresh_kernel).
Proof. vm_compute. reflexivity. Qed.

(** * More on the metric extraction *)

Section SplitFacts.

(** A string without the separator is one piece. *)
Lemma str_split_without sep (s : pystr) :
  sep ∉ s → str_split sep s = [s].
Proof.
  induction s as [|c s IH]; [reflexivity|].
  rewrite not_elem_of_cons. intros [Hc Hs]. cbn [str_split].
  rewrite IH by exact Hs.
  destruct (N.eqb_spec c sep); [congruence | reflexivity].
Qed.

Lemma str_split_nonempty sep (s : pystr) : str_split sep s ≠ [].
Proof.
  destruct s as [|c s]; cbn [str_split]; [discriminate|].
  destruct (c =? sep)%N; [discriminate|].
  destruct (str_split sep s); discriminate.
Qed.

(** Splitting a string that ends with the separator: the pieces of the
    string before it, then an empty piece. *)
Lemma str_split_trailing sep (s : pystr) :
  str_split sep (s ++ [sep]) = str_split sep s ++ [[]].
Proof.
  induction s as [|c s IH]; cbn [app str_split].
  - by rewrite N.eqb_refl.
  - rewrite IH. destruct (c =? sep)%N; [reflexivity|].
    pose proof (str_split_nonempty sep s).
    destruct (str_split sep s); [done | reflexivity].
Qed.

(** In [str.split()] the field being read is closed by the next whitespace
    or the end of the string: every field is non-empty and free of
    whitespace. *)
Lemma str_split_ws_from_fields (w s : pystr) :
  Forall (λ c, isspace c = false) w →
  Forall (λ f, f ≠ [] ∧ Forall (λ c, isspace c = false) f)
         (str_split_ws_from w s).
Proof.
  revert w. induction s as [|c s IH]; intros w Hw; cbn [str_split_ws_from].
  - destruct w as [|a w]; constructor; [|constructor]. split.
    + intros Hrev. apply (f_equal length) in Hrev.
      rewrite length_rev in Hrev. discriminate.
    + apply Forall_forall. intros x Hx.
      rewrite Forall_forall in Hw. apply Hw.
      apply list_elem_of_In, in_rev, list_elem_of_In in Hx. exact Hx.
  - destruct (isspace c) eqn:Hc.
    + destruct w as [|a w]; [by apply IH|]. constructor; [|by apply IH]. split.
      * intros Hrev. apply (f_equal length) in Hrev.
        rewrite length_rev in Hrev. discriminate.
      * apply Forall_forall. intros x Hx.
        rewrite Forall_forall in Hw. apply Hw.
        apply list_elem_of_In, in_rev, list_elem_of_In in Hx. exact Hx.
    + apply IH. by constructor.
Qed.

End SplitFacts.

Section MetricsEdges.
Context `{Builtins}.
Variable w : world.

(** X5.  Every field of [report_splits], so every string handed to
    [float], is non-empty and contains no whitespace, whatever the line. *)
Theorem fields_are_clean (line : pystr) :
  Forall (λ f, f ≠ [] ∧ Forall (λ c, isspace c = false) f)
         (str_split_ws line).
Proof. apply str_split_ws_from_fields. constructor. Qed.

(** X6.  The line the extraction reads from a report that ends with a
    newline is its last line of text, what stands between the last newline
    and the one before it; on such a report the indexing [[-2]] never
    fails. *)
Theorem trailing_newline_selects_last_line (text : pystr) :
  second_to_last_line (text ++ [LF]) = last (str_split LF text) ∧
  is_Some (second_to_last_line (text ++ [LF])).
Proof.
  unfold second_to_last_line. rewrite str_split_trailing, reverse_snoc.
  change (reverse (str_split LF text) !! 0%nat = last (str_split LF text) ∧
          is_Some (reverse (str_split LF text) !! 0%nat)).
  rewrite <- head_lookup, head_reverse.
  split; [reflexivity|].
  pose proof (str_split_nonempty LF text).
  destruct (str_split LF text) as [|l ls _] using rev_ind; [done|].
  rewrite last_snoc. by eexists.
Qed.

(** X7.  On a report without any newline the extraction cell raises
    [IndexError] at once: no metric is recorded and no name is bound. *)
Theorem report_without_newline (s : state) (report : pystr) :
  ns s !! "report" = Some (VStr report) →
  LF ∉ report →
  cell_metrics w s = (inl (PyErr IndexError), s).
Proof.
  destruct s as [m h]. cbn [ns]. intros Hreport Hlf.
  assert (index_from_end (str_split LF report) 2 = inl (PyErr IndexError))
    as Hix by (by rewrite str_split_without).
  apply (wp_unfold (cell_metrics w) (State m h)
           (λ out, out = (inl (PyErr IndexError), State m h))).
  wp_run. reflexivity.
Qed.

(** X8.  The extraction looks at nothing but the second-to-last line: two
    reports that agree on it lead to the same calls and the same outcome. *)
Theorem only_the_summary_line_matters (m : gmap string value)
    (h : list event) (report1 report2 : pystr) :
  second_to_last_line report1 = second_to_last_line report2 →
  let out1 := cell_metrics w (State (<["report" := VStr report1]> m) h) in
  let out2 := cell_metrics w (State (<["report" := VStr report2]> m) h) in
  out1.1 = out2.1 ∧ trace out1.2 = trace out2.2.
Proof.
  intros Hline.
  assert (∃ r, index_from_end (str_split LF report1) 2 = r ∧
               index_from_end (str_split LF report2) 2 = r)
    as (r & Hr1 & Hr2).
  { destruct (index_from_end (str_split LF report1) 2) as [e1|l1] eqn:H1,
             (index_from_end (str_split LF report2) 2) as [e2|l2] eqn:H2.
    - apply second_to_last_missing in H1 as [-> _].
      apply second_to_last_missing in H2 as [-> _]. by eexists.
    - apply second_to_last_missing in H1 as [_ H1].
      apply second_to_last_found in H2. congruence.
    - apply second_to_last_found in H1.
      apply second_to_last_missing in H2 as [_ H2]. congruence.
    - apply second_to_last_found in H1. apply second_to_last_found in H2.
      exists (inr l1). split; [reflexivity | congruence]. }
  cbv zeta.
  change (wp (cell_metrics w) (State (<["report" := VStr report1]> m) h)
            (λ r1 s1,
               wp (cell_metrics w) (State (<["report" := VStr report2]> m) h)
                 (λ r2 s2, r1 = r2 ∧ trace s1 = trace s2))).
  destruct r as [e|line];
    repeat wp_step_with same_answer; cbv beta iota; cbn [trace];
    split; reflexivity.
Qed.

End MetricsEdges.

(** A report of one line, no newline at its end. *)
Lemma report_without_newline_witness :
  let s := State {["report" := VStr (lit "macro avg 0.83 0.85 0.84 1073")]} [] in
  cell_metrics (play calm) s = (inl (PyErr IndexError), s).
Proof.
  apply (report_without_newline (play calm)
           (State {["report" := VStr (lit "macro avg 0.83 0.85 0.84 1073")]} [])
           (lit "macro avg 0.83 0.85 0.84 1073")).
  - vm_compute. reflexivity.
  - apply (bool_decide_unpack _). vm_compute. exact I.
Defined.

(** The sample report and the same report with its per-class rows cut. *)
Lemma only_the_summary_line_matters_witness :
  let out1 :=
    cell_metrics (play calm) (State (<["report" := VStr sample_report]> ∅) []) in
  let out2 :=
    cell_metrics (play calm) (State (<["report" := VStr summary_only]> ∅) []) in
  out1.1 = out2.1 ∧ trace out1.2 = trace out2.2.
Proof.
  apply (only_the_summary_line_matters (play calm) ∅ [] sample_report
           summary_only).
  vm_compute. reflexivity.
Defined.

(** * What the calls of a run receive *)

Section Literals.
Context `{Builtins}.
Variable w : world.

(** The literal configuration reaches every call that takes it. *)
Lemma literals_reach_calls (q : bool) :
  Forall (λ ev, one_seed ev ∧ cased_model ev ∧ quick_run_applied q ev)
         (trace (notebook w q).2).
Proof.
  change (wp (run_cells (cells w q)) (State ∅ [])
            (λ _ s,
               Forall (λ ev, one_seed ev ∧ cased_model ev ∧
                             quick_run_applied q ev)
                      (trace s))).
  assert (Forall (λ ev, one_seed ev ∧ cased_model ev ∧ quick_run_applied q ev)
                 []) by constructor.
  cbn [cells run_cells].
  repeat wp_step_gen
    ltac:(let r := fresh "r" in
          let h := fresh "h" in
          let Hh := fresh "Hh" in
          eapply wp_ext_Forall;
          [ eassumption
          | intros r; repeat split; reflexivity
          | cbn [ns]; intros r h Hh; destruct r ]);
    cbv beta iota; assumption.
Qed.

(** X9.  One seed: [torch.manual_seed], the [random_seed] of
    [load_dataset] and the [seed] of [fit] all receive 100, in every run. *)
Theorem one_seed_everywhere (q : bool) :
  Forall one_seed (trace (notebook w q).2).
Proof.
  eapply Forall_impl; [apply literals_reach_calls|]. by intros ev (? & _).
Qed.

(** X10.  The tokenizer side and the model side agree: [load_dataset] and
    [TokenClassifier] both receive the model name ["bert-base-cased"], and
    [load_dataset] is told not to lower-case. *)
Theorem cased_model_everywhere (q : bool) :
  Forall cased_model (trace (notebook w q).2).
Proof.
  eapply Forall_impl; [apply literals_reach_calls|]. by intros ev (_ & ? & _).
Qed.

(** X11.  The quick-run flag reaches the calls: [load_dataset] receives the
    sampling ratios and [fit] the epoch count that the flag selects. *)
Theorem quick_run_reaches_calls (q : bool) :
  Forall (quick_run_applied q) (trace (notebook w q).2).
Proof.
  eapply Forall_impl; [apply literals_reach_calls|]. by intros ev (_ & _ & ?).
Qed.

End Literals.

(** * The names of the notebook *)

Section Names.
Context `{Builtins}.
Variable w : world.

Ltac cell_keeps x Hx :=
  rewrite !not_elem_of_cons in Hx; destruct_and!;
  repeat match goal with
         | Hne : x ≠ _ |- _ => apply not_eq_sym in Hne
         end;
  intros [m h];
  match goal with
  | |- ns (?c _).2 !! _ = _ =>
      change (wp c (State m h) (λ _ s', ns s' !! x = m !! x))
  end;
  wp_run; cbn [ns]; solve_lookup.

(** Each of the first three cells writes only its own names. *)
Lemma quick_run_cell_keeps x q :
  x ∉ ["QUICK_RUN"] → keeps x (cell_quick_run q).
Proof. intros Hx. cell_keeps x Hx. Qed.

Lemma imports_keep x :
  x ∉ import_names → keeps x (cell_imports w).
Proof. intros Hx. unfold import_names in Hx. cell_keeps x Hx. Qed.

Lemma configuration_keeps x :
  x ∉ configuration_names → keeps x (cell_configuration w).
Proof. intros Hx. unfold configuration_names in Hx. cell_keeps x Hx. Qed.

Lemma run_keeps_other_names (x : string) (q : bool) :
  x ∉ notebook_names → keeps x (run_cells (cells w q)).
Proof.
  unfold notebook_names. rewrite not_elem_of_cons, !not_elem_of_app.
  intros (Hquick & Himport & Hconf & Hlater).
  apply run_cells_keeps.
  rewrite <- (take_drop 3 (cells w q)). apply Forall_app. split.
  - cbn [take cells]. repeat (apply Forall_cons; split); [..|constructor].
    + apply quick_run_cell_keeps. rewrite not_elem_of_cons. split; [done|].
      apply not_elem_of_nil.
    + by apply imports_keep.
    + by apply configuration_keeps.
  - by apply later_cells_keep.
Qed.

Lemma import_names_not_assigned_later :
  Forall (λ x, (x ∉ configuration_names) ∧ (x ∉ later_names)) import_names.
Proof.
  unfold import_names.
  repeat constructor; apply (bool_decide_unpack _); vm_compute; exact I.
Qed.

(** X21.  The imports are final: after any number [n >= 2] of cells of a
    run, each of the nine imported names is bound as the import cell left
    it; no later cell assigns it. *)
Theorem imports_are_final (q : bool) (n : nat) :
  (2 ≤ n)%nat →
  Forall (λ x, ns (run_first w n q).2 !! x = ns (run_first w 2 q).2 !! x)
         import_names.
Proof.
  intros Hn.
  pose proof import_names_not_assigned_later as Hnot.
  rewrite Forall_forall in Hnot. apply Forall_forall. intros x Hx.
  destruct (Hnot x Hx) as [Hconf Hlater].
  destruct n as [|[|k]]; [lia..|]. clear Hn.
  unfold run_first.
  change (take (S (S k)) (cells w q))
    with (take 2 (cells w q) ++ take k (drop 2 (cells w q))).
  rewrite run_cells_app.
  destruct (run_cells (take 2 (cells w q)) fresh_kernel)
    as [[e|[]] s'] eqn:Htwo; [reflexivity|].
  cbn [snd]. apply run_cells_keeps, Forall_take.
  change (drop 2 (cells w q))
    with (cell_configuration w :: drop 3 (cells w q)).
  apply Forall_cons. split.
  - by apply configuration_keeps.
  - by apply later_cells_keep.
Qed.

(** X12.  The notebook leaves every name that is not its own as it found
    it, whatever the kernel held before and however the run ends; its own
    are the flag, the nine imported names, the thirteen configuration
    constants and the eleven names of the later cells. *)
Theorem other_names_untouched (x : string) (q : bool) :
  x ∉ notebook_names → keeps x (run_cells (cells w q)).
Proof. apply run_keeps_other_names. Qed.

End Names.

(** The imports after a full run on a machine where everything works. *)
Lemma imports_are_final_witness :
  Forall (λ x, ns (run_first (play calm) 9 false).2 !! x
               = ns (run_first (play calm) 2 false).2 !! x)
         import_names.
Proof.
  apply (imports_are_final (play calm) false 9). lia.
Defined.

(** A variable of the user's survives a run that stops half-way. *)
Lemma other_names_untouched_witness :
  keeps "my_notes" (run_cells (cells (play fit_fails) false)).
Proof.
  apply (other_names_untouched (play fit_fails) "my_notes" false).
  apply (bool_decide_unpack _). vm_compute. exact I.
Defined.

(** * How values flow through a run *)

Section Flow.
Context `{Builtins}.
Variable w : world.

(** A selector of the trace, evaluated. *)
Ltac evaluate f :=
  repeat match goal with
         | |- context [f ?tr] =>
             let v := eval vm_compute in (f tr) in
             change (f tr) with v
         end.

(** The outcomes of indexing, as facts about the report. *)
Ltac report_facts :=
  repeat match goal with
         | Hix : index_from_end (str_split LF _) 2 = inr _ |- _ =>
             apply second_to_last_found in Hix
         | Hix : index_from_end (str_split LF _) 2 = inl _ |- _ =>
             apply second_to_last_missing in Hix; destruct Hix as [-> Hix]
         | Hix : index _ _ = inr _ |- _ => apply index_found in Hix
         | Hix : index _ _ = inl _ |- _ =>
             apply index_missing in Hix; destruct Hix as [-> Hix]
         end.

Ltac field_of_report :=
  erewrite metric_at_line by eassumption;
  match goal with
  | Hf : str_split_ws _ !! ?i = _ |- _ !! ?i ≫= _ = _ => rewrite Hf
  end;
  cbn [mbind option_bind]; first [assumption | reflexivity].

Ltac ill_shaped :=
  first
    [ match goal with
      | Hline : second_to_last_line _ = None |- _ =>
          unfold well_shaped; rewrite Hline; reflexivity
      end
    | erewrite well_shaped_line by eassumption; cbn [forallb];
      repeat match goal with
             | Hf : str_split_ws _ !! _ = _ |- _ => rewrite Hf; clear Hf
             | Hx : float_of_str _ = _ |- _ =>
                 cbn [mbind option_bind]; rewrite Hx; clear Hx
             end;
      cbn; rewrite ?andb_false_r; reflexivity ].

(** One symbolic run of the notebook, all its outcomes and traces. *)
Lemma run_facts (q : bool) :
  let out := notebook w q in
  environment_flows (trace out.2) ∧
  objects_flow (trace out.2) ∧
  timer_protocol NoTimer (trace out.2) ∧
  prints_what_it_got (ns out.2) (trace out.2) ∧
  records_returned_report out.1 (trace out.2) ∧
  failure_explained out.1 (trace out.2) ∧
  (predict_swallowed (trace out.2) = true →
   (∃ e, out.1 = inl e) ∧ report_args (trace out.2) = None) ∧
  match out.1 with
  | inr _ => Forall (λ x, is_Some (ns out.2 !! x)) notebook_names
  | inl _ => True
  end.
Proof.
  change (wp (run_cells (cells w q)) (State ∅ [])
            (λ r s,
               environment_flows (trace s) ∧
               objects_flow (trace s) ∧
               timer_protocol NoTimer (trace s) ∧
               prints_what_it_got (ns s) (trace s) ∧
               records_returned_report r (trace s) ∧
               failure_explained r (trace s) ∧
               (predict_swallowed (trace s) = true →
                (∃ e, r = inl e) ∧ report_args (trace s) = None) ∧
               match r with
               | inr _ => Forall (λ x, is_Some (ns s !! x)) notebook_names
               | inl _ => True
               end)).
  cbn [cells run_cells]. wp_run; cbn [ns trace app]; report_facts;
    (split; [|split; [|split; [|split; [|split; [|split; [|split]]]]]]).
  all: lazymatch goal with
       | |- environment_flows _ =>
           vm_compute; repeat split; first [exact I | reflexivity]
       | |- objects_flow _ =>
           vm_compute; repeat split; first [exact I | reflexivity]
       | |- timer_protocol _ _ =>
           vm_compute; repeat split; first [exact I | reflexivity]
       | |- prints_what_it_got _ _ =>
           unfold prints_what_it_got;
           evaluate printed; evaluate intervals; evaluate returned_report;
           cbn [lookup list_lookup given fmap option_fmap option_map length];
           (split; [|split; [|split; [|split]]]);
           first [exact I | reflexivity | lia | solve_lookup]
       | |- records_returned_report _ _ =>
           unfold records_returned_report;
           evaluate returned_report; evaluate glue_calls;
           cbv beta iota; cbn [length take metric_fields];
           (split; [|first [exact I | reflexivity]]);
           first [ reflexivity
                 | repeat (constructor;
                           [cbn [records fst snd];
                            split; [reflexivity | field_of_report]|]);
                   constructor ]
       | |- failure_explained _ _ =>
           unfold failure_explained; cbv beta iota;
           first [ exact I
                 | left; reflexivity
                 | right; left; split; reflexivity
                 | right; right;
                   (split; [first [left; reflexivity | right; reflexivity]|]);
                   eexists; split; [reflexivity | ill_shaped] ]
       | |- predict_swallowed _ = true → _ =>
           let Hsw := fresh "Hsw" in
           intros Hsw; vm_compute in Hsw;
           first [ discriminate Hsw
                 | split; [eexists; reflexivity | reflexivity] ]
       | |- Forall _ _ =>
           unfold notebook_names, import_names, configuration_names,
             later_names;
           cbn [app];
           repeat (apply Forall_cons; split; [eexists; solve_lookup|]);
           constructor
       | |- True => exact I
       end.
Qed.

(** X13.  In every run, [load_dataset] receives as [local_path] the name
    of the first temporary directory the configuration cell created, as
    [cache_dir] the name of the second, and as [batch_size] 16 or 8 as
    [torch.cuda.is_available()] answered; [TokenClassifier] receives the
    same [cache_dir]. *)
Theorem environment_reaches_calls (q : bool) :
  environment_flows (trace (notebook w q).2).
Proof. by destruct (run_facts q) as (? & _). Qed.

(** X14.  In every run each object goes to the call it is meant for: the
    classifier that [TokenClassifier] returned is the receiver of [fit],
    [predict] and both label decoders; [fit] trains on the first object
    [load_dataset] returned and [predict] runs on the second; both decoders
    read the fourth; the predicted labels are decoded from what [predict]
    returned; and [classification_report] is given the true labels first,
    the predicted labels second. *)
Theorem objects_reach_calls (q : bool) :
  objects_flow (trace (notebook w q).2).
Proof. by destruct (run_facts q) as (_ & ? & _). Qed.

(** X15.  Each timer is constructed, entered, wraps one call of [fit] or
    [predict], is left through [__exit__] with the exception of that call
    (or none), and only then asked for its interval. *)
Theorem timers_follow_protocol (q : bool) :
  timer_protocol NoTimer (trace (notebook w q).2).
Proof. by destruct (run_facts q) as (_ & _ & ? & _). Qed.

(** X16.  In every run, what is printed is what the run obtained: first
    the training time, formatted from the first interval read off a timer
    divided by 3600, then the prediction time from the second, then the
    report as [classification_report] returned it; nothing else is printed,
    and [report] is bound to that report, or unbound when there is none. *)
Theorem prints_what_was_obtained (q : bool) :
  prints_what_it_got (ns (notebook w q).2) (trace (notebook w q).2).
Proof. by destruct (run_facts q) as (_ & _ & _ & ? & _). Qed.

(** X17.  In every run, the [sb.glue] calls record, in the order
    precision, recall, f1, fields 2, 3 and 4 of the second-to-last line of
    the report that [classification_report] returned in this run; none is
    made before there is a report, and a run that completes has made all
    three. *)
Theorem metrics_of_the_returned_report (q : bool) :
  records_returned_report (notebook w q).1 (trace (notebook w q).2).
Proof. by destruct (run_facts q) as (_ & _ & _ & _ & ? & _). Qed.

(** X18.  Every way a run can fail: its exception is the one an external
    call raised last; or it is the [NameError] for [preds], left unbound
    when [predict] raised and the timer's [__exit__] swallowed that
    exception; or it is the [IndexError] or [ValueError] of the metric
    extraction, on a report that was returned and is not well shaped. *)
Theorem failures_explained (q : bool) :
  failure_explained (notebook w q).1 (trace (notebook w q).2).
Proof. by destruct (run_facts q) as (_ & _ & _ & _ & _ & ? & _). Qed.

(** X19.  When [predict] raised and the timer's [__exit__] swallowed the
    exception, the run does not complete and [classification_report] is
    never called. *)
Theorem swallowed_predict_stops_the_run (q : bool) :
  predict_swallowed (trace (notebook w q).2) = true →
  (∃ e, (notebook w q).1 = inl e) ∧ report_args (trace (notebook w q).2) = None.
Proof. by destruct (run_facts q) as (_ & _ & _ & _ & _ & _ & ? & _). Qed.

(** X20.  A run that completes in a fresh kernel leaves exactly the
    thirty-four names of the notebook bound: the flag, the nine imported
    names, the thirteen configuration constants and the eleven names of the
    later cells. *)
Theorem completed_run_binds_its_names (q : bool) :
  (notebook w q).1 = inr tt →
  dom (ns (notebook w q).2) = list_to_set notebook_names.
Proof.
  intros Hdone. apply set_eq. intros x.
  rewrite elem_of_dom, elem_of_list_to_set.
  destruct (decide (x ∈ notebook_names)) as [Hx|Hx].
  - split; [done|]. intros _.
    pose proof (run_facts q) as Hrun. cbv zeta in Hrun.
    destruct Hrun as (_ & _ & _ & _ & _ & _ & _ & Hbound).
    rewrite Hdone in Hbound. rewrite Forall_forall in Hbound. by apply Hbound.
  - split; [|done]. intros Hsome.
    pose proof (run_keeps_other_names w x q Hx fresh_kernel) as Hkeep.
    unfold notebook in Hsome. rewrite Hkeep in Hsome.
    cbn [fresh_kernel ns] in Hsome. rewrite lookup_empty in Hsome.
    by destruct Hsome.
Qed.

(** C8, amended.  In every run, [load_dataset], [fit] and [predict] each
    receive [num_gpus=None], and every call receives the keywords written
    in its cell and no other; [num_gpus] is not the only device argument:
    [fit] also receives [local_rank=-1]; [load_dataset] and [predict]
    receive no other device keyword, and no other call receives one.  The
    batch size handed to [load_dataset] is 16 or 8 as
    [torch.cuda.is_available()] answered.  The device selector [DEVICE] is
    left at ["cuda"] by the configuration cell and is conveyed to no call:
    the cells after the configuration cell never read it, so they make the
    same calls and end alike whatever it is bound to. *)
Theorem device_configuration (q : bool) :
  Forall device_configured (trace (notebook w q).2) ∧
  batch_size_by_cuda (trace (notebook w q).2) ∧
  match (run_first w 3 q).1 with
  | inr _ => ns (run_first w 3 q).2 !! "DEVICE" = Some (VStr (lit "cuda"))
  | inl _ => True
  end ∧
  device_blind (run_cells (drop 3 (cells w q))).
Proof.
  split; [|split; [|split]].
  - apply calls_device_configured.
  - destruct (run_facts q) as ([Hload _] & _).
    unfold batch_size_by_cuda, given in *.
    destruct (load_kwargs (trace (notebook w q).2)); [|exact I].
    by destruct Hload as (_ & _ & Hbatch).
  - apply device_is_cuda.
  - apply run_cells_device_blind, later_cells_device_blind.
Qed.

End Flow.

(** The names after a full run on a machine where everything works. *)
Lemma completed_run_binds_its_names_witness :
  dom (ns (notebook (play calm) false).2) = list_to_set notebook_names.
Proof.
  apply (completed_run_binds_its_names (play calm) false).
  vm_compute. reflexivity.
Defined.

(** A machine whose [predict] runs out of memory and whose context
    manager swallows the error: the run goes on and stops in cell 8. *)
Lemma swallowed_predict_stops_the_run_witness :
  let out := notebook (play predict_fails_quietly) false in
  (∃ e, out.1 = inl e) ∧ report_args (trace out.2) = None.
Proof.
  apply (swallowed_predict_stops_the_run (play predict_fails_quietly) false).
  vm_compute. reflexivity.
Defined.
